(** * Revenue pipelines: a shallow embedding of [Actual_Revenue.py] and
      [Estimate_Revenue.py]

    Both scripts read a spreadsheet into a pandas frame, decide which rows
    carry a revenue code, clean the cells, unpivot the month columns, stamp
    the year found in the file name and hand the long table to a SQL sink.
    [Actual_Revenue.py] keeps every row up to the last one that carries a
    code and then reindexes on code x month; [Estimate_Revenue.py] keeps the
    rows that carry a code, does not reindex, and runs once per file of a
    folder inside a [try]/[except].

    Conventions of the embedding.
    - A Python [str] is a [string] of 8-bit characters; the digit and
      white-space classes are the ASCII ones of Python ([\d] is 0-9,
      [str.isspace] holds for 9-13, 28-31 and 32).
    - A cell is a string, a number or a missing value.  Numbers are opaque:
      the scripts never compute with them, they only carry them, ask whether
      a cell is a string, and parse strings into them ([pd.to_numeric]).
      The number type and the parser form the interface [Numeric].
      [NaN], [None] and [pd.NA] are one missing value [CNA].
    - A frame is given as [pd.read_excel] returns it: the labels of the month
      columns (pairwise distinct, and distinct from the labels the scripts
      add) and the rows under the default 0..n-1 index; a row is the first
      column, the second column and the month cells (a short row reads as
      missing cells).  Columns hold values of any kind (object columns).
    - A raised exception is the left injection of a sum. *)

From Stdlib Require Import String Ascii List ZArith NArith Lia Bool.
From Stdlib Require Import Numbers.DecimalString Numbers.DecimalPos.
Import ListNotations.
Open Scope string_scope.
Open Scope list_scope.

Set Implicit Arguments.

(* ================================================================= *)
(** ** Strings as Python sees them *)

Module PyStr.

(** [c.isspace()] on the 8-bit range. *)
Definition is_space (c : ascii) : bool :=
  let n := nat_of_ascii c in
  (((9 <=? n) && (n <=? 13)) || ((28 <=? n) && (n <=? 32)))%nat.

(** [\d]. *)
Definition is_digit (c : ascii) : bool :=
  let n := nat_of_ascii c in ((48 <=? n) && (n <=? 57))%nat.

Definition is_dot (c : ascii) : bool := Ascii.eqb c ".".

Definition newline : ascii := ascii_of_nat 10.

Fixpoint lstrip (s : string) : string :=
  match s with
  | EmptyString => EmptyString
  | String c s' => if is_space c then lstrip s' else s
  end.

Fixpoint rstrip (s : string) : string :=
  match s with
  | EmptyString => EmptyString
  | String c s' =>
      match rstrip s' with
      | EmptyString => if is_space c then EmptyString else String c EmptyString
      | r => String c r
      end
  end.

(** [s.strip()] *)
Definition strip (s : string) : string := rstrip (lstrip s).

(** [s.lower()] on the ASCII letters. *)
Definition lower_char (c : ascii) : ascii :=
  let n := nat_of_ascii c in
  if ((65 <=? n) && (n <=? 90))%nat then ascii_of_nat (n + 32) else c.

Fixpoint lower (s : string) : string :=
  match s with
  | EmptyString => EmptyString
  | String c s' => String (lower_char c) (lower s')
  end.

(** [s.endswith(suffix)] *)
Definition endswith (s suffix : string) : bool :=
  let n := String.length s in
  let k := String.length suffix in
  (k <=? n)%nat && String.eqb (substring (n - k) k s) suffix.

(** The maximal runs of characters outside the class [sep]. *)
Fixpoint runs (sep : ascii -> bool) (s : string) : list string :=
  match s with
  | EmptyString => []
  | String c s' =>
      if sep c then runs sep s'
      else match s' with
           | EmptyString => [String c EmptyString]
           | String c' _ =>
               if sep c' then String c EmptyString :: runs sep s'
               else match runs sep s' with
                    | t :: ts => String c t :: ts
                    | [] => [String c EmptyString]
                    end
           end
  end.

(** [s.split()]: the maximal runs of characters that are not white space. *)
Definition split (s : string) : list string := runs is_space s.

End PyStr.

(* ================================================================= *)
(** ** The two regular expressions *)

Module Regex.
Import PyStr.

(** A sequence of character classes matched at the start of a string;
    the remainder is returned. *)
Fixpoint match_classes (cs : list (ascii -> bool)) (s : string)
  : option string :=
  match cs with
  | [] => Some s
  | p :: cs' =>
      match s with
      | EmptyString => None
      | String c s' => if p c then match_classes cs' s' else None
      end
  end.

(** [\d{4}\.\d{2}\.\d{2}] *)
Definition code_classes : list (ascii -> bool) :=
  [is_digit; is_digit; is_digit; is_digit; is_dot;
   is_digit; is_digit; is_dot; is_digit; is_digit].

(** [re.compile(r"^\d{4}\.\d{2}\.\d{2}$")] used through [str.match], that
    is [re.match]: the match starts at the first character, and [$]
    accepts the end of the string or the position before a final
    newline. *)
Definition code_match (s : string) : bool :=
  match match_classes code_classes s with
  | Some rest =>
      String.eqb rest EmptyString
      || String.eqb rest (String newline EmptyString)
  | None => false
  end.

(** The pattern read as a format: the whole string is DDDD.DD.DD. *)
Definition code_exact (s : string) : bool :=
  match match_classes code_classes s with
  | Some rest => String.eqb rest EmptyString
  | None => false
  end.

Definition year_classes : list (ascii -> bool) :=
  [is_digit; is_digit; is_digit; is_digit].

(** [re.search(r"(\d{4})", s)]: the leftmost position at which four
    digits follow each other; [group(1)] is those four characters. *)
Fixpoint year_search (s : string) : option string :=
  match match_classes year_classes s with
  | Some _ => Some (substring 0 4 s)
  | None =>
      match s with
      | EmptyString => None
      | String _ s' => year_search s'
      end
  end.

Definition digit_value (c : ascii) : Z := Z.of_nat (nat_of_ascii c) - 48.

(** [int(s)] for a string of decimal digits. *)
Definition int_of_digits (s : string) : Z :=
  fold_left (fun acc c => (10 * acc + digit_value c)%Z)
            (list_ascii_of_string s) 0%Z.

(** [str(n)] for an integer. *)
Definition str_of_int (n : Z) : string :=
  NilEmpty.string_of_int (Z.to_int n).

End Regex.

(* ================================================================= *)
(** ** Exceptions *)

Inductive exn_kind := ValueError | IndexError | LibraryError.

(** An exception: its class and [str(e)]. [LibraryError] stands for whatever
    [pd.read_excel] or [to_sql] raise. *)
Inductive exn := Raise (k : exn_kind) (msg : string).

Definition str_of_exn (e : exn) : string := let (_, msg) := e in msg.

Definition result (A : Type) : Type := (exn + A)%type.

Definition ret {A} (a : A) : result A := inr a.
Definition raise {A} (k : exn_kind) (msg : string) : result A :=
  inl (Raise k msg).
Definition bind {A B} (m : result A) (f : A -> result B) : result B :=
  match m with
  | inl e => inl e
  | inr a => f a
  end.

Notation "x <- m ;; k" := (bind m (fun x => k))
  (at level 61, m at next level, right associativity).

(** What pandas says when the last element of an empty index is asked for,
    and when [reindex] meets an index with repeated labels. *)
Definition msg_empty_index : string :=
  "index -1 is out of bounds for axis 0 with size 0".
Definition msg_duplicate_labels : string :=
  "cannot handle a non-unique multi-index!".

(** The messages of the scripts' own [raise] statements. *)
Definition msg_no_year_actual : string :=
  "❌ No 4-digit year found in the file name.".
Definition msg_no_year_estimate : string := "No year found in filename".
Definition msg_no_files : string := "❌ No Excel files found in folder.".

(* ================================================================= *)
(** ** Cells, frames and records *)

(** The numbers a cell can hold, and [pd.to_numeric] on a string. *)
Class Numeric (num : Type) := {
  num_eqb : num -> num -> bool;
  num_eqb_eq : forall x y, num_eqb x y = true <-> x = y;
  parse_num : string -> option num
}.

Inductive cell (num : Type) : Type :=
| CStr (s : string)
| CNum (x : num)
| CNA.
Arguments CStr {num} s.
Arguments CNum {num} x.
Arguments CNA {num}.

Record row (num : Type) := Row {
  code : cell num;          (* df.iloc[:, 0] *)
  source : cell num;        (* df.iloc[:, 1] *)
  values : list (cell num)  (* df.iloc[:, 2:] *)
}.

Record frame (num : Type) := Frame {
  month_cols : list string; (* df.columns[2:] *)
  rows : list (row num)
}.

(** A row of [df.melt(...)]. *)
Record melted (num : Type) := Melted {
  m_code : cell num;
  m_source : cell num;
  m_month : string;
  m_value : cell num
}.

(** A row of the table handed to [to_sql]. *)
Record LongRecord (num : Type) := Long {
  Year : Z;
  Month : string;
  Revenue_Code : cell num;
  Revenue_Source : cell num;
  Value : cell num
}.

Definition month_order : list string :=
  ["January"; "February"; "March"; "April"; "May"; "June";
   "July"; "August"; "September"; "October"; "November"; "December"].

(* ================================================================= *)
(** ** The steps shared by the two scripts *)

Section Steps.
Context {num : Type} `{Numeric num}.
Import PyStr Regex.

Definition cell_eqb (a b : cell num) : bool :=
  match a, b with
  | CStr s, CStr t => String.eqb s t
  | CNum x, CNum y => num_eqb x y
  | CNA, CNA => true
  | _, _ => false
  end.

(** [df.columns = df.columns.str.strip()] *)
Definition strip_columns (df : frame num) : frame num :=
  Frame (map strip (month_cols df)) (rows df).

(** [x.astype(str)] followed by [str.match(pattern, na=False)] on one
    cell.  A string is matched as it is.  The text of a number or of a
    missing value ([1000.01], [nan]) holds at most one dot and cannot
    match. *)
Definition is_code (c : cell num) : bool :=
  match c with
  | CStr s => code_match s
  | CNum _ => false
  | CNA => false
  end.

(** The same map applied to every cell of the frame. *)
Definition row_map (f : cell num -> cell num) (r : row num) : row num :=
  Row (f (code r)) (f (source r)) (map f (values r)).
Definition frame_map (f : cell num -> cell num) (df : frame num)
  : frame num :=
  Frame (month_cols df) (map (row_map f) (rows df)).

(** [df.replace("-", pd.NA)] on one cell. *)
Definition replace_dash (c : cell num) : cell num :=
  match c with
  | CStr s => if String.eqb s "-" then CNA else c
  | _ => c
  end.

(** [lambda x: x.strip() if isinstance(x, str) else x] *)
Definition strip_cell (c : cell num) : cell num :=
  match c with
  | CStr s => CStr (strip s)
  | _ => c
  end.

Definition isna (c : cell num) : bool :=
  match c with
  | CNA => true
  | _ => false
  end.

(** [df.iloc[:, 1] = df.iloc[:, 1].fillna(df.iloc[:, 0])] *)
Definition fill_source_row (r : row num) : row num :=
  Row (code r) (if isna (source r) then code r else source r) (values r).
Definition fill_source (df : frame num) : frame num :=
  Frame (month_cols df) (map fill_source_row (rows df)).

(** Section CLEAN VALUES of both scripts. *)
Definition clean (df : frame num) : frame num :=
  let df := frame_map replace_dash df in
  let df := frame_map strip_cell df in
  fill_source df.

(** What the three passes do to one cell. *)
Definition clean_cell (c : cell num) : cell num :=
  strip_cell (replace_dash c).

(** [df.melt(id_vars=fixed_cols, value_vars=month_cols, var_name="Month",
    value_name="Value")]: the month columns from left to right, and
    under each of them the rows from top to bottom. *)
Definition melt_column (rs : list (row num)) (jm : nat * string)
  : list (melted num) :=
  map (fun r => Melted (code r) (source r) (snd jm)
                       (nth (fst jm) (values r) CNA)) rs.
Definition enumerate {A} (l : list A) : list (nat * A) :=
  combine (seq 0 (length l)) l.
Definition melt (df : frame num) : list (melted num) :=
  flat_map (melt_column (rows df)) (enumerate (month_cols df)).

(** [re.search(r"(\d{4})", file_name)] and [int(match.group(1))]. *)
Definition extract_year (file_name : string) : option Z :=
  option_map int_of_digits (year_search file_name).

(** [pd.to_numeric(x, errors="coerce")] on one cell. *)
Definition to_numeric (c : cell num) : cell num :=
  match c with
  | CStr s => match parse_num s with
              | Some x => CNum x
              | None => CNA
              end
  | CNum x => CNum x
  | CNA => CNA
  end.

(** [df_final["Value"] = pd.to_numeric(df_final["Value"], errors="coerce")] *)
Definition coerce_record (r : LongRecord num) : LongRecord num :=
  Long (Year r) (Month r) (Revenue_Code r) (Revenue_Source r)
       (to_numeric (Value r)).
Definition coerce_values (t : list (LongRecord num))
  : list (LongRecord num) := map coerce_record t.

End Steps.

(* ================================================================= *)
(** ** [Actual_Revenue.py] *)

Module Actual.
Section Actual.
Context {num : Type} `{Numeric num}.
Import PyStr Regex.

(** [valid_rows = df[df.iloc[:, 0].astype(str).str.match(pattern, na=False)]],
    kept with the index labels of [df]. *)
Definition valid_rows (df : frame num) : list (nat * row num) :=
  filter (fun ir => is_code (code (snd ir))) (enumerate (rows df)).

(** [valid_rows.index[-1]] *)
Definition last_index (df : frame num) : result nat :=
  match rev (map fst (valid_rows df)) with
  | [] => raise IndexError msg_empty_index
  | i :: _ => ret i
  end.

(** [df.loc[:last_index]]: the label slice includes its end. *)
Definition loc_upto (last : nat) (df : frame num) : frame num :=
  Frame (month_cols df) (firstn (S last) (rows df)).

(** A row of [df_final] before the reindexing: columns Date, Revenue Code,
    Revenue Source and Value. *)
Record dated := Dated {
  d_date : string;
  d_code : cell num;
  d_source : cell num;
  d_value : cell num
}.

(** [df_melted["Year"] = extracted_year], the Date column
    [Year.astype(str) + " " + Month.astype(str)], and the selection of the
    four columns. *)
Definition add_date (year : Z) (m : melted num) : dated :=
  Dated (str_of_int year ++ " " ++ m_month m)
        (m_code m) (m_source m) (m_value m).

(** [df_final["Revenue Code"].unique()]: first occurrences, in order. *)
Fixpoint unique (l : list (cell num)) : list (cell num) :=
  match l with
  | [] => []
  | c :: l' => c :: filter (fun d => negb (cell_eqb c d)) (unique l')
  end.

(** [pd.MultiIndex.from_product([unique_codes, month_order])] *)
Definition from_product (codes : list (cell num)) (months : list string)
  : list (cell num * string) :=
  flat_map (fun c => map (fun m => (c, m)) months) codes.

(** [df_final["Date"].str.split().str[1]]: the second word of the date,
    missing when there is none. *)
Definition month_of_date (date : string) : option string :=
  nth_error (split date) 1.

(** A label of the index set by [set_index(["Revenue Code", "Month"])]. *)
Definition label : Type := (cell num * option string)%type.
Definition label_of (d : dated) : label :=
  (d_code d, month_of_date (d_date d)).
Definition label_eqb (a b : label) : bool :=
  cell_eqb (fst a) (fst b)
  && match snd a, snd b with
     | Some m, Some n => String.eqb m n
     | None, None => true
     | _, _ => false
     end.

Fixpoint is_unique (ls : list label) : bool :=
  match ls with
  | [] => true
  | l :: ls' => negb (existsb (label_eqb l) ls') && is_unique ls'
  end.

(** One row of [.reindex(reindex_template).reset_index()] with the Year
    column added: the row of [df_final] under that label, or missing
    values. *)
Definition reindex_row (year : Z) (df_final : list dated)
           (cm : cell num * string) : LongRecord num :=
  match find (fun d => label_eqb (label_of d) (fst cm, Some (snd cm)))
             df_final with
  | Some d => Long year (snd cm) (fst cm) (d_source d) (d_value d)
  | None => Long year (snd cm) (fst cm) CNA CNA
  end.

(** [reindex] refuses an index with repeated labels. *)
Definition reindex (year : Z) (df_final : list dated)
           (template : list (cell num * string))
  : result (list (LongRecord num)) :=
  if is_unique (map label_of df_final)
  then ret (map (reindex_row year df_final) template)
  else raise ValueError msg_duplicate_labels.

(** The frame after sections 2 to 4 of the script. *)
Definition validated (df : frame num) : result (frame num) :=
  let df := strip_columns df in
  last <- last_index df ;;
  ret (loc_upto last df).

(** The script from the frame read from the file to the table handed to
    [to_sql]; [file_name] is [os.path.basename(file_path)]. *)
Definition transform (file_name : string) (df : frame num)
  : result (list (LongRecord num)) :=
  df <- validated df ;;
  let df := clean df in
  let df_melted := melt df in
  match extract_year file_name with
  | None => raise ValueError msg_no_year_actual
  | Some extracted_year =>
      let df_final := map (add_date extracted_year) df_melted in
      let unique_codes := unique (map d_code df_final) in
      let reindex_template := from_product unique_codes month_order in
      df_final <- reindex extracted_year df_final reindex_template ;;
      ret (coerce_values df_final)
  end.

End Actual.
End Actual.

(* ================================================================= *)
(** ** [Estimate_Revenue.py] *)

Module Estimate.
Section Estimate.
Context {num : Type} `{Numeric num}.
Import PyStr Regex.

(** [df = df[df[revenue_code_col].astype(str).str.match(pattern, na=False)]]
    and [reset_index]. *)
Definition keep_codes (df : frame num) : frame num :=
  Frame (month_cols df) (filter (fun r => is_code (code r)) (rows df)).

Definition validated (df : frame num) : frame num :=
  keep_codes (strip_columns df).

(** The rename and the selection of Year, Month, Revenue_Code,
    Revenue_Source and Value. *)
Definition final_row (year : Z) (m : melted num) : LongRecord num :=
  Long year (m_month m) (m_code m) (m_source m) (m_value m).

(** The body of the [try] from the frame read from the file to the table
    handed to [to_sql]. *)
Definition transform (file_name : string) (df : frame num)
  : result (list (LongRecord num)) :=
  let df := validated df in
  let df := clean df in
  let df_melted := melt df in
  match extract_year file_name with
  | None => raise ValueError msg_no_year_estimate
  | Some extracted_year =>
      let df_final := map (final_row extracted_year) df_melted in
      ret (coerce_values df_final)
  end.

(** The collaborators of the loop: reading a file of the folder, and the
    append to the staging table ([None] when the write went through; a
    refused write leaves the table as it was). *)
Variable read_excel : string -> result (frame num).
Variable to_sql : list (LongRecord num) -> option exn.

Definition process_file (file_name : string)
  : result (list (LongRecord num)) :=
  df <- read_excel file_name ;;
  df_final <- transform file_name df ;;
  match to_sql df_final with
  | Some e => inl e
  | None => ret df_final
  end.

(** What the script prints. *)
Inductive line :=
| Processing (file_name : string)
| Loaded (n : nat) (file_name : string)
| Failed (file_name : string) (msg : string)
| AllProcessed.

(** The staging table and the standard output. *)
Record world := World {
  staging : list (LongRecord num);
  stdout : list line
}.

Definition print (l : line) (w : world) : world :=
  World (staging w) (stdout w ++ [l]).

(** One turn of [for file_name in excel_files], with its [try] and
    [except Exception as e]. *)
Definition iteration (w : world) (file_name : string) : world :=
  let w := print (Processing file_name) w in
  match process_file file_name with
  | inr df_final =>
      print (Loaded (length df_final) file_name)
            (World (staging w ++ df_final) (stdout w))
  | inl e => print (Failed file_name (str_of_exn e)) w
  end.

Definition excel_files (listing : list string) : list string :=
  filter (fun f => endswith (lower f) ".xlsx") listing.

(** The script from [os.listdir(FOLDER_PATH)] on. *)
Definition main (listing : list string) (w : world) : result world :=
  match excel_files listing with
  | [] => raise ValueError msg_no_files
  | files => ret (print AllProcessed (fold_left iteration files w))
  end.

End Estimate.
End Estimate.

(** The integers as cell numbers, with decimal literals as the strings that
    parse; used to run the scripts on concrete frames. *)
Module ZCells.
Import PyStr Regex.

Definition all_digits (s : string) : bool :=
  forallb is_digit (list_ascii_of_string s).

Definition parse_Z (s : string) : option Z :=
  match s with
  | EmptyString => None
  | String c s' =>
      if Ascii.eqb c "-"
      then if all_digits s' && negb (String.eqb s' "")
           then Some (- int_of_digits s')%Z else None
      else if all_digits s then Some (int_of_digits s) else None
  end.

#[export] Instance Z_numeric : Numeric Z :=
  {| num_eqb := Z.eqb; num_eqb_eq := Z.eqb_eq; parse_num := parse_Z |}.
End ZCells.

(* ================================================================= *)
(** ** Vocabulary of the statements *)

Module Props.
Import PyStr Regex.

(** [s[i:]] *)
Fixpoint drop (i : nat) (s : string) : string :=
  match i, s with
  | O, _ => s
  | S i', String _ s' => drop i' s'
  | S _, EmptyString => EmptyString
  end.

(** Four digits follow each other from position [i] of [s]. *)
Definition four_digits_at (s : string) (i : nat) : bool :=
  match match_classes year_classes (drop i s) with
  | Some _ => true
  | None => false
  end.

(** The year as the specification words it, to be compared with
    [extract_year]: the first maximal run of digits whose length is
    exactly four. *)
Definition first_run_of_exactly_four (file_name : string) : option Z :=
  option_map int_of_digits
    (find (fun r => Nat.eqb (String.length r) 4)
          (runs (fun c => negb (is_digit c)) file_name)).

(** The month under which [Actual_Revenue.py] files a column: the word
    after the year in its Date, that is the first word of the column
    label. *)
Definition month_word (label : string) : option string :=
  nth_error (split label) 0.

(** No character of [s] is white space. *)
Definition no_space (s : string) : Prop :=
  forall c, In c (list_ascii_of_string s) -> is_space c = false.

(** A class sequence all of whose classes exclude white space. *)
Definition solid (cs : list (ascii -> bool)) : Prop :=
  Forall (fun p : ascii -> bool =>
            forall c, p c = true -> is_space c = false) cs.

Section Cells.
Context {num : Type} `{Numeric num}.

(** What section CLEAN VALUES makes of one row. *)
Definition clean_row (r : row num) : row num :=
  let c := clean_cell (code r) in
  let s := clean_cell (source r) in
  Row c (if isna s then c else s) (map clean_cell (values r)).

(** A string cell that is the sentinel with white space around it. *)
Definition padded_dash (c : cell num) : bool :=
  match c with
  | CStr s => String.eqb (strip s) "-" && negb (String.eqb s "-")
  | _ => false
  end.

Definition row_cells (r : row num) : list (cell num) :=
  code r :: source r :: values r.

Definition frame_cells (df : frame num) : list (cell num) :=
  flat_map row_cells (rows df).

(** The records of a table that carry the code [c]. *)
Definition records_of (c : cell num) (t : list (LongRecord num))
  : list (LongRecord num) :=
  filter (fun x => cell_eqb (Revenue_Code x) c) t.

(** The fields of a record other than Value. *)
Definition keys_of (x : LongRecord num)
  : Z * string * cell num * cell num :=
  (Year x, Month x, Revenue_Code x, Revenue_Source x).

(** The table of a run, empty when the run raised. *)
Definition table_of (r : result (list (LongRecord num)))
  : list (LongRecord num) :=
  match r with
  | inr t => t
  | inl _ => []
  end.

Variable read_excel : string -> result (frame num).
Variable to_sql : list (LongRecord num) -> option exn.

(** The rows a file adds to the staging table, and the line printed
    once it has been dealt with. *)
Definition contribution (file_name : string) : list (LongRecord num) :=
  table_of (Estimate.process_file read_excel to_sql file_name).

Definition report_of (file_name : string) : Estimate.line :=
  match Estimate.process_file read_excel to_sql file_name with
  | inr t => Estimate.Loaded (length t) file_name
  | inl e => Estimate.Failed file_name (str_of_exn e)
  end.
End Cells.

End Props.

(** Frames on which the scripts are run in the examples: twelve month
    columns, integer cells. *)
Module Samples.
Import ZCells.

Definition short_months : list string :=
  ["Jan"; "Feb"; "Mar"; "Apr"; "May"; "Jun";
   "Jul"; "Aug"; "Sep"; "Oct"; "Nov"; "Dec"].

Definition amounts : list (cell Z) :=
  [CNum 100%Z; CStr "-"; CNum 300%Z; CNum 400%Z; CNum 500%Z; CNum 600%Z;
   CNum 700%Z; CNum 800%Z; CNum 900%Z; CNum 1000%Z; CNum 1100%Z;
   CNum 1200%Z].

Definition sales : row Z := Row (CStr "1000.01.01") (CStr "Sales") amounts.
Definition blank_source : row Z := Row (CStr "2000.05.10") CNA amounts.
Definition total : row Z := Row (CStr "TOTAL") CNA amounts.
Definition padded : row Z := Row (CStr "1000.01.01") (CStr " - ") amounts.

Definition report : frame Z := Frame month_order [sales; blank_source].
Definition with_total : frame Z := Frame month_order [total; sales].
Definition only_total : frame Z := Frame month_order [total].
Definition repeated : frame Z := Frame month_order [sales; sales].
Definition abbreviated : frame Z := Frame short_months [sales].
Definition with_padded : frame Z := Frame month_order [padded].

Definition file_name : string := "2021 Report.xlsx".

(** A folder with a workbook that cannot be read, a good one and a file
    that is not a workbook; a sink that accepts every table. *)
Definition listing : list string :=
  ["broken.xlsx"; "2021 Report.XLSX"; "notes.txt"].
Definition read_excel (name : string) : result (frame Z) :=
  if String.eqb name "2021 Report.XLSX" then ret report
  else raise LibraryError "File is not a zip file".
Definition to_sql (t : list (LongRecord Z)) : option exn := None.
Definition empty_world : Estimate.world (num:=Z) := Estimate.World [] [].
End Samples.

(* ================================================================= *)
(** ** The connection string of both scripts *)

Module Connection.

(** The truth value of what [os.getenv] returned: a variable that is not
    set ([None]) and the empty string are false. *)
Definition truthy (v : option string) : bool :=
  match v with
  | Some (String _ _) => true
  | _ => false
  end.

(** How an f-string prints what [os.getenv] returned. *)
Definition fmt (v : option string) : string :=
  match v with
  | Some s => s
  | None => "None"
  end.

Definition msg_env : string :=
  "❌ Database environment variables not loaded".

(** The bytes [urllib.parse.quote] never escapes: letters, digits and
    [_.-~]. *)
Definition always_safe (c : ascii) : bool :=
  let n := nat_of_ascii c in
  (((65 <=? n) && (n <=? 90)) || ((97 <=? n) && (n <=? 122))
   || ((48 <=? n) && (n <=? 57))
   || (n =? 95) || (n =? 46) || (n =? 45) || (n =? 126))%nat.

Definition hex_digit (n : nat) : ascii :=
  if (n <? 10)%nat then ascii_of_nat (48 + n) else ascii_of_nat (55 + n).

(** ['%{:02X}'.format(byte)] *)
Definition percent (c : ascii) : string :=
  let n := nat_of_ascii c in
  String "%" (String (hex_digit (n / 16))
                     (String (hex_digit (n mod 16)) EmptyString)).

(** [urllib.parse.quote_plus] with its default [safe=''], byte by byte: a
    space becomes a plus sign, a safe byte stays, any other byte is
    escaped. *)
Definition quote_char (c : ascii) : string :=
  if Ascii.eqb c " " then "+"
  else if always_safe c then String c EmptyString
  else percent c.

Fixpoint quote_plus (s : string) : string :=
  match s with
  | EmptyString => EmptyString
  | String c s' => (quote_char c ++ quote_plus s')%string
  end.

(** The f-string handed to [quote_plus]. *)
Definition odbc_string (server database username password : option string)
  : string :=
  ("DRIVER={ODBC Driver 17 for SQL Server};"
   ++ "SERVER=" ++ fmt server ++ ";"
   ++ "DATABASE=" ++ fmt database ++ ";"
   ++ "UID=" ++ fmt username ++ ";"
   ++ "PWD=" ++ fmt password ++ ";"
   ++ "TrustServerCertificate=yes;"
   ++ "Encrypt=no;")%string.

Definition url_prefix : string := "mssql+pyodbc:///?odbc_connect=".

(** Section SQL SERVER CONNECTION of both scripts, from the four values of
    [os.getenv] to the URL handed to [create_engine]. *)
Definition engine_url (server database username password : option string)
  : result string :=
  if negb (forallb truthy [server; database; username; password])
  then raise ValueError msg_env
  else ret (url_prefix
            ++ quote_plus (odbc_string server database username password))
         %string.

(** The characters an escaped string is made of. *)
Definition url_char (c : ascii) : bool :=
  always_safe c || Ascii.eqb c "%" || Ascii.eqb c "+".

End Connection.

(** Further vocabulary of the statements. *)
Module Shapes.
Import PyStr Regex Props.

Section Cells.
Context {num : Type} `{Numeric num}.

(** The label under which [Actual_Revenue.py] files a row of the long
    table. *)
Definition long_label (m : melted num) : cell num * option string :=
  (m_code m, month_word (m_month m)).

Definition is_text (c : cell num) : bool :=
  match c with
  | CStr _ => true
  | _ => false
  end.

(** A string cell without white space at either end, or a cell that is
    not a string. *)
Definition trimmed (c : cell num) : bool :=
  match c with
  | CStr s => String.eqb (strip s) s
  | _ => true
  end.

(** The cleaned codes of the rows, first occurrences in order. *)
Definition distinct_codes (rs : list (row num)) : list (cell num) :=
  Actual.unique (map (fun r => clean_cell (code r)) rs).

(** The code and month of a record. *)
Definition code_month (x : LongRecord num) : cell num * string :=
  (Revenue_Code x, Month x).
End Cells.

End Shapes.

(* ================================================================= *)
(** * Properties *)

Unset Implicit Arguments.
Import ZCells.

(** ** Strings *)

Module PyStrFacts.
Import PyStr Regex Props.

Lemma is_digit_not_space c : is_digit c = true -> is_space c = false.
Proof.
  destruct c as [[] [] [] [] [] [] [] []]; vm_compute; congruence.
Qed.

Lemma is_dot_not_space c : is_dot c = true -> is_space c = false.
Proof.
  unfold is_dot. intros E. apply Ascii.eqb_eq in E. subst c. reflexivity.
Qed.

Lemma lstrip_shape s :
  lstrip s = EmptyString
  \/ exists c t, lstrip s = String c t /\ is_space c = false.
Proof.
  induction s as [|c s IH]; simpl.
  - now left.
  - destruct (is_space c) eqn:E; [exact IH|].
    right. now exists c, s.
Qed.

Lemma rstrip_head c s :
  is_space c = false -> rstrip (String c s) = String c (rstrip s).
Proof.
  intros E. simpl. destruct (rstrip s); [now rewrite E|reflexivity].
Qed.

Lemma rstrip_idem s : rstrip (rstrip s) = rstrip s.
Proof.
  induction s as [|c s IH]; simpl; [reflexivity|].
  destruct (rstrip s) as [|d r] eqn:E.
  - destruct (is_space c) eqn:Ec; simpl; [reflexivity|now rewrite Ec].
  - change (rstrip (String c (String d r)) = String c (String d r)).
    simpl rstrip at 1. change (match rstrip r with
                               | EmptyString => _
                               | String a s0 => _ end)
      with (rstrip (String d r)) in *.
    rewrite IH. reflexivity.
Qed.

Lemma strip_idem s : strip (strip s) = strip s.
Proof.
  unfold strip. destruct (lstrip_shape s) as [E|(c & t & E & Ec)];
    rewrite E.
  - reflexivity.
  - rewrite (rstrip_head _ _ Ec). simpl lstrip. rewrite Ec.
    rewrite (rstrip_head _ _ Ec). now rewrite rstrip_idem.
Qed.

Lemma rstrip_no_space s : no_space s -> rstrip s = s.
Proof.
  induction s as [|c s IH]; intros N; [reflexivity|].
  rewrite rstrip_head by (apply N; now left).
  rewrite IH; [reflexivity|]. intros d Hd. apply N. now right.
Qed.

Lemma strip_no_space s : no_space s -> strip s = s.
Proof.
  intros N. unfold strip. destruct s as [|c s]; [reflexivity|].
  simpl lstrip. rewrite (N c) by now left. now apply rstrip_no_space.
Qed.

Lemma rstrip_app_space s c :
  is_space c = true -> rstrip (s ++ String c EmptyString)%string = rstrip s.
Proof.
  intros E. induction s as [|d s IH]; simpl.
  - now rewrite E.
  - now rewrite IH.
Qed.

Lemma strip_no_space_newline s :
  no_space s -> strip (s ++ String newline EmptyString)%string = s.
Proof.
  intros N. unfold strip. destruct s as [|c s].
  - reflexivity.
  - simpl lstrip. rewrite (N c) by now left.
    change (String c (s ++ String newline EmptyString)%string)
      with (String c s ++ String newline EmptyString)%string.
    rewrite rstrip_app_space by reflexivity. now apply rstrip_no_space.
Qed.

End PyStrFacts.

(** ** The patterns *)

Module RegexFacts.
Import PyStr Regex Props PyStrFacts.

Lemma match_classes_split cs :
  solid cs ->
  forall s rest,
    match_classes cs s = Some rest ->
    exists pre,
      s = (pre ++ rest)%string /\ no_space pre
      /\ forall rest', match_classes cs (pre ++ rest')%string = Some rest'.
Proof.
  induction 1 as [|p cs Hp Hcs IH]; intros s rest M; simpl in M.
  - injection M as <-. exists EmptyString. repeat split.
    intros c [].
  - destruct s as [|c s]; [discriminate|].
    destruct (p c) eqn:Ep; [|discriminate].
    destruct (IH _ _ M) as (pre & -> & N & R).
    exists (String c pre). repeat split.
    + intros d [<-|Hd]; [now apply Hp|now apply N].
    + intros rest'. simpl. now rewrite Ep, R.
Qed.

Lemma code_classes_solid : solid code_classes.
Proof.
  unfold code_classes.
  repeat constructor;
    first [exact is_digit_not_space | exact is_dot_not_space].
Qed.

Lemma append_empty s : (s ++ EmptyString)%string = s.
Proof. induction s; simpl; congruence. Qed.

(** A string accepted by the pattern is, once stripped, DDDD.DD.DD. *)
Lemma code_match_strip s :
  code_match s = true -> code_exact (strip s) = true.
Proof.
  unfold code_match, code_exact.
  destruct (match_classes code_classes s) as [rest|] eqn:M;
    [|discriminate].
  destruct (match_classes_split _ code_classes_solid _ _ M)
    as (pre & -> & N & R).
  intros E. apply orb_true_iff in E as [E|E]; apply String.eqb_eq in E;
    subst rest.
  - rewrite append_empty, strip_no_space by exact N.
    rewrite <- (append_empty pre) at 1. now rewrite R.
  - rewrite strip_no_space_newline by exact N.
    rewrite <- (append_empty pre) at 1. now rewrite R.
Qed.

Lemma code_exact_match s : code_exact s = true -> code_match s = true.
Proof.
  unfold code_match, code_exact.
  destruct (match_classes code_classes s); [|discriminate].
  intros ->. reflexivity.
Qed.

Lemma year_search_some s y :
  year_search s = Some y ->
  exists i,
    y = substring i 4 s /\ four_digits_at s i = true
    /\ forall j, j < i -> four_digits_at s j = false.
Proof.
  induction s as [|c s IH]; [discriminate|].
  intros E. cbn [year_search] in E.
  destruct (match_classes year_classes (String c s)) eqn:M.
  - injection E as <-. exists 0. unfold four_digits_at. simpl drop.
    rewrite M. repeat split. intros j Hj. lia.
  - destruct (IH E) as (i & -> & Hi & Hlt).
    exists (S i). repeat split.
    + exact Hi.
    + intros [|j] Hj.
      * unfold four_digits_at. simpl drop. now rewrite M.
      * apply Hlt. lia.
Qed.

Lemma year_search_none s :
  year_search s = None -> forall i, four_digits_at s i = false.
Proof.
  induction s as [|c s IH]; intros E i.
  - now destruct i.
  - cbn [year_search] in E.
    destruct (match_classes year_classes (String c s)) eqn:M;
      [discriminate|].
    destruct i as [|i].
    + unfold four_digits_at. simpl drop. now rewrite M.
    + exact (IH E i).
Qed.

Lemma string_of_uint_no_space d : no_space (NilEmpty.string_of_uint d).
Proof.
  induction d; simpl; intros c Hc; try contradiction;
    destruct Hc as [<-|Hc]; solve [reflexivity | now apply IHd].
Qed.

Lemma str_of_int_no_space n : no_space (str_of_int n).
Proof.
  unfold str_of_int. destruct n as [|p|p]; simpl.
  - intros c [<-|[]]. reflexivity.
  - apply string_of_uint_no_space.
  - intros c [<-|Hc]; [reflexivity|].
    exact (string_of_uint_no_space _ _ Hc).
Qed.

Lemma str_of_int_not_empty n : str_of_int n <> EmptyString.
Proof.
  unfold str_of_int. destruct n as [|p|p]; simpl; try discriminate.
  destruct (Pos.to_uint p) eqn:E; simpl; try discriminate.
  now apply Unsigned.to_uint_nonnil in E.
Qed.

Lemma runs_sep sep c s :
  sep c = true -> runs sep (String c s) = runs sep s.
Proof. intros E. simpl. now rewrite E. Qed.

Lemma runs_step sep c s :
  sep c = false ->
  runs sep (String c s)
  = match s with
    | EmptyString => [String c EmptyString]
    | String c' _ =>
        if sep c' then String c EmptyString :: runs sep s
        else match runs sep s with
             | t :: ts => String c t :: ts
             | [] => [String c EmptyString]
             end
    end.
Proof.
  intros E. destruct s as [|c' s]; simpl; now rewrite E.
Qed.

Lemma runs_prefix sep d c0 r :
  d <> EmptyString ->
  (forall c, In c (list_ascii_of_string d) -> sep c = false) ->
  sep c0 = true ->
  runs sep (d ++ String c0 r)%string = d :: runs sep r.
Proof.
  intros Hd Hns H0. induction d as [|c d IH]; [congruence|].
  assert (Hc : sep c = false) by (apply Hns; now left).
  change (String c d ++ String c0 r)%string
    with (String c (d ++ String c0 r)%string).
  rewrite runs_step by exact Hc.
  destruct d as [|c' d].
  - cbn [append]. now rewrite H0, runs_sep.
  - assert (Hc' : sep c' = false) by (apply Hns; right; now left).
    cbn [append]. rewrite Hc'.
    change (String c' (d ++ String c0 r)%string)
      with (String c' d ++ String c0 r)%string.
    rewrite IH; [reflexivity|discriminate|].
    intros x Hx. apply Hns. now right.
Qed.

Lemma split_date n m :
  split (str_of_int n ++ " " ++ m)%string = str_of_int n :: split m.
Proof.
  unfold split. apply runs_prefix.
  - apply str_of_int_not_empty.
  - apply str_of_int_no_space.
  - reflexivity.
Qed.

End RegexFacts.

(** ** Cells and the shared steps *)

Section StepFacts.
Context {num : Type} `{Numeric num}.
Import PyStr Regex Props PyStrFacts RegexFacts.

Lemma cell_eqb_eq (a b : cell num) : cell_eqb a b = true <-> a = b.
Proof.
  destruct a as [s|x|], b as [t|y|]; simpl; split; intros E;
    try discriminate; try reflexivity.
  - apply String.eqb_eq in E. now subst.
  - injection E as ->. apply String.eqb_refl.
  - apply num_eqb_eq in E. now subst.
  - injection E as ->. now apply num_eqb_eq.
Qed.

Lemma cell_eqb_refl (a : cell num) : cell_eqb a a = true.
Proof. now apply cell_eqb_eq. Qed.

Lemma cell_eqb_neq (a b : cell num) : cell_eqb a b = false <-> a <> b.
Proof.
  split.
  - intros E ->. now rewrite cell_eqb_refl in E.
  - intros N. destruct (cell_eqb a b) eqn:E; [|reflexivity].
    now apply cell_eqb_eq in E.
Qed.

Lemma rows_clean (df : frame num) :
  rows (clean df) = map clean_row (rows df).
Proof.
  unfold clean, fill_source, frame_map. cbn [rows].
  rewrite !map_map. apply map_ext. intros [c s vs].
  unfold fill_source_row, row_map, clean_row, clean_cell. cbn [code source values].
  now rewrite map_map.
Qed.

Lemma month_cols_clean (df : frame num) :
  month_cols (clean df) = month_cols df.
Proof. reflexivity. Qed.

Lemma clean_cell_idem (c : cell num) :
  padded_dash c = false -> clean_cell (clean_cell c) = clean_cell c.
Proof.
  destruct c as [s|x|]; try reflexivity.
  unfold padded_dash, clean_cell. cbn [replace_dash].
  destruct (String.eqb s "-") eqn:E; [reflexivity|].
  rewrite andb_true_r. intros P. cbn [strip_cell replace_dash].
  rewrite P. cbn [strip_cell]. now rewrite strip_idem.
Qed.

(** A cleaned cell is never the sentinel with white space around it. *)
Lemma clean_cell_not_padded (c : cell num) :
  padded_dash (clean_cell c) = false.
Proof.
  destruct c as [s|x|]; try reflexivity.
  unfold clean_cell. cbn [replace_dash].
  destruct (String.eqb s "-") eqn:E; [reflexivity|].
  cbn [strip_cell padded_dash]. rewrite strip_idem.
  destruct (String.eqb (strip s) "-"); reflexivity.
Qed.

End StepFacts.

(** ** Cleaning *)

Section CleaningFacts.
Context {num : Type} `{Numeric num}.
Import PyStr Regex Props PyStrFacts RegexFacts.

Lemma clean_unfold (df : frame num) :
  clean df = Frame (month_cols df) (map clean_row (rows df)).
Proof.
  rewrite <- rows_clean, <- (month_cols_clean df).
  now destruct (clean df).
Qed.

Lemma clean_row_idem (r : row num) :
  existsb padded_dash (row_cells r) = false ->
  clean_row (clean_row r) = clean_row r.
Proof.
  destruct r as [c s vs]. unfold row_cells. cbn [code source values existsb].
  intros P. apply orb_false_iff in P as [Pc P].
  apply orb_false_iff in P as [Ps Pv].
  unfold clean_row. cbn [code source values].
  rewrite (clean_cell_idem c Pc). f_equal.
  - destruct (isna (clean_cell s)) eqn:Es.
    + rewrite (clean_cell_idem c Pc). now destruct (isna (clean_cell c)).
    + rewrite (clean_cell_idem s Ps). now rewrite Es.
  - rewrite map_map. apply map_ext_in. intros v Hv.
    apply clean_cell_idem.
    destruct (padded_dash v) eqn:E; [|reflexivity].
    assert (X : existsb padded_dash vs = true)
      by (apply existsb_exists; now exists v).
    congruence.
Qed.

(** C5 (amended).  Cleaning turns a cell that is exactly the string "-"
    into a missing value, trims every other string cell (a "-" with white
    space around it is trimmed to the string "-", it does not become
    missing), leaves numbers and missing values as they are, and then
    gives every row whose cleaned source is missing its cleaned code as
    source.  The month labels are untouched, and in both scripts the long
    table is the unpivot of the cleaned frame. *)
Theorem C5_clean_cell_by_cell (df : frame num) :
  clean_cell (CStr "-" : cell num) = CNA
  /\ (forall s, s <> "-" ->
                clean_cell (CStr s : cell num) = CStr (strip s))
  /\ (forall x : num, clean_cell (CNum x) = CNum x)
  /\ clean_cell (CNA : cell num) = CNA
  /\ month_cols (clean df) = month_cols df
  /\ rows (clean df)
     = map (fun r =>
              Row (clean_cell (code r))
                  (if isna (clean_cell (source r))
                   then clean_cell (code r) else clean_cell (source r))
                  (map clean_cell (values r)))
           (rows df)
  /\ (forall file_name,
        Estimate.transform file_name df
        = match extract_year file_name with
          | None => raise ValueError msg_no_year_estimate
          | Some y =>
              ret (coerce_values
                     (map (Estimate.final_row y)
                          (melt (clean (Estimate.validated df)))))
          end)
  /\ (forall file_name v y,
        Actual.validated df = inr v ->
        extract_year file_name = Some y ->
        let df_final := map (Actual.add_date y) (melt (clean v)) in
        Actual.transform file_name df
        = bind (Actual.reindex y df_final
                  (Actual.from_product
                     (Actual.unique (map (@Actual.d_code num) df_final))
                     month_order))
               (fun t => ret (coerce_values t))).
Proof.
  repeat split.
  - intros s Hs. unfold clean_cell. cbn [replace_dash].
    destruct (String.eqb s "-") eqn:E; [|reflexivity].
    now apply String.eqb_eq in E.
  - exact (rows_clean df).
  - intros file_name v y Hv Hy. unfold Actual.transform.
    rewrite Hv. cbn [bind]. now rewrite Hy.
Qed.

(** C6 (amended).  On a frame none of whose cells is a "-" with white
    space around it, cleaning the cleaned frame again changes nothing. *)
Theorem C6_clean_idempotent (df : frame num) :
  existsb padded_dash (frame_cells df) = false ->
  clean (clean df) = clean df.
Proof.
  intros P. rewrite (clean_unfold (clean df)), rows_clean, month_cols_clean.
  rewrite (clean_unfold df). f_equal.
  rewrite map_map. apply map_ext_in. intros r Hr.
  apply clean_row_idem.
  destruct (existsb padded_dash (row_cells r)) eqn:E; [|reflexivity].
  apply existsb_exists in E as (c & Hc & Pc).
  assert (X : existsb padded_dash (frame_cells df) = true).
  { apply existsb_exists. exists c. split; [|exact Pc].
    unfold frame_cells. apply in_flat_map. now exists r. }
  congruence.
Qed.

End CleaningFacts.

(** C5, on a frame of integers: a padded string is trimmed. *)
Lemma C5_clean_cell_by_cell_witness :
  " a " <> "-" /\ clean_cell (CStr " a " : cell Z) = CStr "a".
Proof.
  split; [discriminate|].
  exact (proj1 (proj2 (C5_clean_cell_by_cell Samples.report))
               " a " ltac:(discriminate)).
Defined.

(** C5 as stated fails on the source cell " - ": stripped it is the
    sentinel, yet cleaning leaves the string "-" there, neither a missing
    value nor the code of the row. *)
Lemma C5_padded_sentinel_not_missing :
  PyStr.strip " - " = "-"
  /\ map (@source Z) (rows (clean Samples.with_padded)) = [CStr "-"].
Proof. split; reflexivity. Qed.

(** C6, on the two-row sample frame. *)
Lemma C6_clean_idempotent_witness :
  existsb Props.padded_dash (Props.frame_cells Samples.report) = false
  /\ clean (clean Samples.report) = clean Samples.report.
Proof.
  split; [reflexivity|].
  apply (C6_clean_idempotent Samples.report). reflexivity.
Defined.

(** C6 as stated fails on the frame whose source cell is " - ": the first
    cleaning leaves "-", the second replaces it by the code. *)
Lemma C6_second_cleaning_differs :
  clean (clean Samples.with_padded) <> clean Samples.with_padded.
Proof.
  intros E. apply (f_equal (fun df => map (@source Z) (rows df))) in E.
  vm_compute in E. discriminate.
Qed.

(** ** Lists, unpivoting, coercion *)

Section TableFacts.
Context {num : Type} `{Numeric num}.
Import PyStr Regex Props PyStrFacts RegexFacts.

Lemma in_combine_seq {A} (l : list A) a j x :
  In (j, x) (combine (seq a (length l)) l)
  <-> a <= j /\ nth_error l (j - a) = Some x.
Proof.
  revert a. induction l as [|y l IH]; intros a; cbn [length seq combine].
  - split; [intros []|]. intros [_ E]. now destruct (j - a).
  - cbn [In]. rewrite IH. split.
    + intros [E|[Hle E]].
      * injection E as <- <-. split; [lia|].
        now replace (a - a) with 0 by lia.
      * split; [lia|]. replace (j - a) with (S (j - S a)) by lia.
        exact E.
    + intros [Hle E]. destruct (Nat.eq_dec a j) as [<-|N].
      * left. replace (a - a) with 0 in E by lia. now injection E as <-.
      * right. split; [lia|].
        replace (j - a) with (S (j - S a)) in E by lia. exact E.
Qed.

Lemma in_enumerate {A} (l : list A) j x :
  In (j, x) (enumerate l) <-> nth_error l j = Some x.
Proof.
  unfold enumerate. rewrite in_combine_seq, Nat.sub_0_r.
  split; [now intros [_ E]|]. intros E. split; [lia|exact E].
Qed.

Lemma in_melt (df : frame num) (m : melted num) :
  In m (melt df)
  <-> exists j label r,
        nth_error (month_cols df) j = Some label /\ In r (rows df)
        /\ m = Melted (code r) (source r) label (nth j (values r) CNA).
Proof.
  unfold melt. rewrite in_flat_map. split.
  - intros ([j label] & Hj & Hm). apply in_enumerate in Hj.
    unfold melt_column in Hm. apply in_map_iff in Hm as (r & <- & Hr).
    now exists j, label, r.
  - intros (j & label & r & Hj & Hr & ->). exists (j, label).
    split; [now apply in_enumerate|].
    unfold melt_column. apply in_map_iff. now exists r.
Qed.

Lemma melt_no_rows cols : melt (Frame cols (@nil (row num))) = [].
Proof.
  unfold melt. cbn [rows month_cols].
  induction (enumerate cols) as [|jm l IH]; [reflexivity|exact IH].
Qed.

Lemma in_coerce_values (t : list (LongRecord num)) x :
  In x (coerce_values t) <-> exists x0, In x0 t /\ x = coerce_record x0.
Proof.
  unfold coerce_values. rewrite in_map_iff.
  split; intros (x0 & A & B); exists x0; now split.
Qed.

Lemma keys_coerce_values (t : list (LongRecord num)) :
  map keys_of (coerce_values t) = map keys_of t.
Proof.
  unfold coerce_values. rewrite map_map. now apply map_ext.
Qed.

(** A matching code survives cleaning as DDDD.DD.DD. *)
Lemma is_code_clean (c : cell num) :
  is_code c = true ->
  exists s, clean_cell c = CStr s /\ code_exact s = true.
Proof.
  destruct c as [s|x|]; try discriminate. cbn [is_code]. intros M.
  exists (strip s). split; [|now apply code_match_strip].
  unfold clean_cell. cbn [replace_dash].
  destruct (String.eqb s "-") eqn:E; [|reflexivity].
  apply String.eqb_eq in E. now subst s.
Qed.

Lemma filter_none {A} (f : A -> bool) (l : list A) :
  (forall x, In x l -> f x = false) -> filter f l = [].
Proof.
  induction l as [|x l IH]; intros N; [reflexivity|].
  cbn [filter]. rewrite (N x) by now left.
  apply IH. intros y Hy. apply N. now right.
Qed.

End TableFacts.

(** ** [Estimate_Revenue.py]: the transformation of one file *)

Section EstimateFacts.
Context {num : Type} `{Numeric num}.
Import PyStr Regex Props PyStrFacts RegexFacts.

Lemma estimate_transform_inr file_name (df : frame num) out :
  Estimate.transform file_name df = inr out ->
  exists y,
    extract_year file_name = Some y
    /\ out = coerce_values
               (map (Estimate.final_row y)
                    (melt (clean (Estimate.validated df)))).
Proof.
  unfold Estimate.transform.
  destruct (extract_year file_name) as [y|]; [|discriminate].
  intros E. injection E as <-. now exists y.
Qed.

Lemma estimate_validated_drop cols (rs1 rs2 : list (row num)) r :
  is_code (code r) = false ->
  Estimate.validated (Frame cols (rs1 ++ r :: rs2))
  = Estimate.validated (Frame cols (rs1 ++ rs2)).
Proof.
  intros E. unfold Estimate.validated, Estimate.keep_codes, strip_columns.
  cbn [rows month_cols]. rewrite !filter_app. cbn [filter].
  now rewrite E.
Qed.

Lemma estimate_codes_exact file_name (df : frame num) out x :
  Estimate.transform file_name df = inr out ->
  In x out ->
  exists s, Revenue_Code x = CStr s /\ code_exact s = true.
Proof.
  intros E Hx. apply estimate_transform_inr in E as (y & _ & ->).
  apply in_coerce_values in Hx as (x0 & Hx0 & ->).
  apply in_map_iff in Hx0 as (m & <- & Hm).
  apply in_melt in Hm as (j & label & r & _ & Hr & ->).
  cbn [coerce_record Revenue_Code Estimate.final_row m_code].
  rewrite rows_clean in Hr. apply in_map_iff in Hr as (r0 & <- & Hr0).
  unfold Estimate.validated, Estimate.keep_codes in Hr0. cbn [rows] in Hr0.
  apply filter_In in Hr0 as [_ M].
  unfold clean_row. cbn [code]. now apply is_code_clean.
Qed.

End EstimateFacts.

(** ** [Actual_Revenue.py] *)

Section ActualFacts.
Context {num : Type} `{Numeric num}.
Import PyStr Regex Props PyStrFacts RegexFacts.

Lemma combine_seq_app {A} (l1 l2 : list A) a :
  combine (seq a (length (l1 ++ l2))) (l1 ++ l2)
  = combine (seq a (length l1)) l1
    ++ combine (seq (a + length l1) (length l2)) l2.
Proof.
  revert a. induction l1 as [|x l1 IH]; intros a;
    cbn [length app seq combine].
  - now rewrite Nat.add_0_r.
  - rewrite IH. now replace (S a + length l1) with (a + S (length l1))
      by lia.
Qed.

Lemma enumerate_app {A} (l1 l2 : list A) :
  enumerate (l1 ++ l2)
  = enumerate l1 ++ combine (seq (length l1) (length l2)) l2.
Proof. unfold enumerate. now rewrite combine_seq_app. Qed.

Lemma in_combine_snd {A B} (l : list A) (l' : list B) x :
  In x (combine l l') -> In (snd x) l'.
Proof. destruct x as [a b]. apply in_combine_r. Qed.

(** The frame kept by the script: every row down to the last row whose
    first cell matches. *)
Lemma actual_validated_upto cols (rs1 rs2 : list (row num)) r :
  is_code (code r) = true ->
  (forall r', In r' rs2 -> is_code (code r') = false) ->
  Actual.validated (Frame cols (rs1 ++ r :: rs2))
  = inr (Frame (map strip cols) (rs1 ++ [r])).
Proof.
  intros M N. unfold Actual.validated, Actual.last_index, Actual.valid_rows.
  unfold strip_columns. cbn [rows month_cols].
  rewrite enumerate_app, filter_app. cbn [length seq combine filter snd].
  rewrite M.
  rewrite (filter_none _ (combine (seq (S (length rs1)) (length rs2)) rs2)).
  2:{ intros x Hx. apply N. exact (in_combine_snd _ _ _ Hx). }
  rewrite map_app, rev_app_distr. cbn [map rev app fst bind ret].
  unfold Actual.loc_upto. cbn [rows month_cols]. do 2 f_equal.
  replace (S (length rs1)) with (length (rs1 ++ [r]))
    by (rewrite length_app; cbn [length]; lia).
  change (r :: rs2) with ([r] ++ rs2). rewrite app_assoc.
  rewrite firstn_app, Nat.sub_diag, firstn_all. cbn [firstn].
  now rewrite app_nil_r.
Qed.

Lemma actual_validated_no_code (df : frame num) :
  (forall r, In r (rows df) -> is_code (code r) = false) ->
  Actual.validated df = raise IndexError msg_empty_index.
Proof.
  intros N. unfold Actual.validated, Actual.last_index, Actual.valid_rows.
  rewrite filter_none; [reflexivity|].
  intros x Hx. apply N. unfold strip_columns, enumerate in Hx.
  cbn [rows] in Hx. exact (in_combine_snd _ _ _ Hx).
Qed.

Lemma actual_transform_inr file_name (df : frame num) out :
  Actual.transform file_name df = inr out ->
  exists v y,
    Actual.validated df = inr v /\ extract_year file_name = Some y
    /\ let df_final := map (Actual.add_date y) (melt (clean v)) in
       Actual.is_unique (map (@Actual.label_of num) df_final) = true
       /\ out = coerce_values
                  (map (Actual.reindex_row y df_final)
                       (Actual.from_product
                          (Actual.unique
                             (map (@Actual.d_code num) df_final))
                          month_order)).
Proof.
  unfold Actual.transform.
  destruct (Actual.validated df) as [e|v]; [discriminate|]. cbn [bind].
  destruct (extract_year file_name) as [y|]; [|discriminate].
  unfold Actual.reindex.
  destruct (Actual.is_unique _) eqn:U; [|discriminate].
  cbn [bind ret]. intros E. injection E as <-. now exists v, y.
Qed.

Lemma label_eqb_eq (a b : Actual.label (num:=num)) :
  Actual.label_eqb a b = true <-> a = b.
Proof.
  destruct a as [c m], b as [d n]. unfold Actual.label_eqb. cbn [fst snd].
  rewrite andb_true_iff, cell_eqb_eq. split.
  - intros [-> E]. destruct m, n; try discriminate; [|reflexivity].
    apply String.eqb_eq in E. now subst.
  - intros E. injection E as -> ->. split; [reflexivity|].
    destruct n; [apply String.eqb_refl|reflexivity].
Qed.

Lemma is_unique_NoDup (ls : list (Actual.label (num:=num))) :
  Actual.is_unique ls = true <-> NoDup ls.
Proof.
  induction ls as [|l ls IH]; cbn [Actual.is_unique].
  - split; [constructor|reflexivity].
  - rewrite andb_true_iff, negb_true_iff, IH. split.
    + intros [N D]. constructor; [|exact D]. intros Hin.
      assert (X : existsb (Actual.label_eqb l) ls = true)
        by (apply existsb_exists; exists l; split;
            [exact Hin|now apply label_eqb_eq]).
      congruence.
    + intros D. inversion D as [|? ? Hn D']; subst. split; [|exact D'].
      destruct (existsb (Actual.label_eqb l) ls) eqn:E; [|reflexivity].
      apply existsb_exists in E as (l' & Hl' & E).
      apply label_eqb_eq in E. now subst.
Qed.

Lemma in_unique (l : list (cell num)) c :
  In c (Actual.unique l) <-> In c l.
Proof.
  induction l as [|d l IH]; cbn [Actual.unique In]; [reflexivity|].
  rewrite filter_In, IH, negb_true_iff, cell_eqb_neq.
  split.
  - intros [E|[I _]]; [now left|now right].
  - intros [E|I]; [now left|].
    destruct (cell_eqb d c) eqn:E.
    + left. now apply cell_eqb_eq.
    + right. split; [exact I|now apply cell_eqb_neq].
Qed.

Lemma NoDup_unique (l : list (cell num)) : NoDup (Actual.unique l).
Proof.
  induction l as [|d l IH]; cbn [Actual.unique]; constructor.
  - rewrite filter_In, negb_true_iff, cell_eqb_neq. now intros [_ N].
  - now apply NoDup_filter.
Qed.

Lemma label_of_add_date y (m : melted num) :
  Actual.label_of (Actual.add_date y m)
  = (m_code m, month_word (m_month m)).
Proof.
  unfold Actual.label_of, Actual.add_date, Actual.month_of_date.
  cbn [Actual.d_code Actual.d_date]. now rewrite split_date.
Qed.

Lemma month_word_canonical m :
  In m month_order -> month_word m = Some m.
Proof.
  unfold month_order. cbn [In].
  intros E; repeat (destruct E as [<-|E]; [reflexivity|]); contradiction.
Qed.

Lemma filter_from_product (codes : list (cell num)) months c :
  NoDup codes -> In c codes ->
  filter (fun cm => cell_eqb (fst cm) c) (Actual.from_product codes months)
  = map (fun m => (c, m)) months.
Proof.
  unfold Actual.from_product.
  induction codes as [|d codes IH]; intros D I; [contradiction|].
  inversion D as [|? ? Hn D']; subst. cbn [flat_map].
  rewrite filter_app. destruct I as [->|I].
  - rewrite (filter_none _ (flat_map _ codes)).
    + rewrite app_nil_r. apply forallb_filter_id. apply forallb_forall.
      intros x Hx. apply in_map_iff in Hx as (m & <- & _).
      apply cell_eqb_refl.
    + intros x Hx. apply in_flat_map in Hx as (d & Hd & Hx).
      apply in_map_iff in Hx as (m & <- & _). cbn [fst].
      apply cell_eqb_neq. intros ->. contradiction.
  - rewrite filter_none.
    + now apply IH.
    + intros x Hx. apply in_map_iff in Hx as (m & <- & _). cbn [fst].
      apply cell_eqb_neq. intros ->. contradiction.
Qed.

Lemma reindex_row_key y (dff : list (Actual.dated (num:=num))) cm :
  Revenue_Code (Actual.reindex_row y dff cm) = fst cm
  /\ Month (Actual.reindex_row y dff cm) = snd cm
  /\ Year (Actual.reindex_row y dff cm) = y.
Proof.
  unfold Actual.reindex_row. now destruct (find _ dff).
Qed.

Lemma filter_map_comm {A B} (p : B -> bool) (g : A -> B) l :
  filter p (map g l) = map g (filter (fun a => p (g a)) l).
Proof.
  induction l as [|a l IH]; [reflexivity|]. cbn [map filter].
  destruct (p (g a)); cbn [map]; now rewrite IH.
Qed.

(** Under an index without repeated labels, the row found under the
    label of a row is that row. *)
Lemma find_unique_label (dff : list (Actual.dated (num:=num))) d :
  NoDup (map (@Actual.label_of num) dff) -> In d dff ->
  find (fun d' => Actual.label_eqb (Actual.label_of d')
                                   (Actual.label_of d)) dff
  = Some d.
Proof.
  induction dff as [|e dff IH]; intros D I; [contradiction|].
  cbn [map] in D. inversion D as [|? ? Hn D']; subst. cbn [find].
  destruct I as [->|I].
  - now rewrite (proj2 (label_eqb_eq _ _) eq_refl).
  - destruct (Actual.label_eqb (Actual.label_of e) (Actual.label_of d))
      eqn:E; [|now apply IH].
    apply label_eqb_eq in E. exfalso. apply Hn. rewrite E.
    now apply in_map.
Qed.

Lemma actual_validated_shape (df v : frame num) :
  Actual.validated df = inr v ->
  month_cols v = map strip (month_cols df)
  /\ exists last, rows v = firstn (S last) (rows df).
Proof.
  unfold Actual.validated.
  destruct (Actual.last_index (strip_columns df)) as [e|last];
    [discriminate|].
  cbn [bind ret]. intros E. injection E as <-. split; [reflexivity|].
  now exists last.
Qed.

(** Where a record of the reindexed table comes from: the row of the long
    table filed under its code and month, or nowhere. *)
Lemma actual_record_origin file_name (df v : frame num) out y x :
  Actual.transform file_name df = inr out ->
  Actual.validated df = inr v ->
  extract_year file_name = Some y ->
  In x out ->
  Year x = y /\ In (Month x) month_order
  /\ ((exists m, In m (melt (clean v))
                 /\ m_code m = Revenue_Code x
                 /\ month_word (m_month m) = Some (Month x)
                 /\ Revenue_Source x = m_source m
                 /\ Value x = to_numeric (m_value m))
      \/ ((forall m, In m (melt (clean v)) ->
                     ~ (m_code m = Revenue_Code x
                        /\ month_word (m_month m) = Some (Month x)))
          /\ Revenue_Source x = CNA /\ Value x = CNA)).
Proof.
  intros E Hv Hy Hx.
  apply actual_transform_inr in E as (v' & y' & Hv' & Hy' & U & ->).
  assert (v' = v) by congruence. assert (y' = y) by congruence.
  subst v' y'. clear Hv' Hy'.
  apply in_coerce_values in Hx as (x0 & Hx0 & ->).
  apply in_map_iff in Hx0 as ([c mo] & <- & Hcm).
  unfold Actual.from_product in Hcm.
  apply in_flat_map in Hcm as (c' & _ & Hcm).
  apply in_map_iff in Hcm as (mo' & E & Hmo). injection E as -> ->.
  unfold Actual.reindex_row. cbn [fst snd].
  destruct (find _ _) as [d|] eqn:F;
    cbn [coerce_record Year Month Revenue_Code Revenue_Source Value];
    (split; [reflexivity|]); (split; [exact Hmo|]).
  - left. apply find_some in F as [Hd L]. apply label_eqb_eq in L.
    apply in_map_iff in Hd as (m & <- & Hm).
    rewrite label_of_add_date in L. injection L as L1 L2.
    exists m. now repeat split.
  - right. split; [|now split]. intros m Hm [L1 L2].
    pose proof (find_none _ _ F (Actual.add_date y m)
                          (in_map _ _ _ Hm)) as X.
    cbv beta in X. rewrite label_of_add_date, L1, L2 in X.
    rewrite (proj2 (label_eqb_eq _ _) eq_refl) in X. discriminate.
Qed.

(** A row of the long table whose month label is a canonical month is in
    the reindexed table, with its source and its coerced value. *)
Lemma actual_record_present file_name (df v : frame num) out y m :
  Actual.transform file_name df = inr out ->
  Actual.validated df = inr v ->
  extract_year file_name = Some y ->
  In m (melt (clean v)) ->
  In (m_month m) month_order ->
  In (Long y (m_month m) (m_code m) (m_source m) (to_numeric (m_value m)))
     out.
Proof.
  intros E Hv Hy Hm Hmo.
  apply actual_transform_inr in E as (v' & y' & Hv' & Hy' & U & ->).
  assert (v' = v) by congruence. assert (y' = y) by congruence.
  subst v' y'. clear Hv' Hy'. cbv zeta in U.
  apply is_unique_NoDup in U.
  apply in_coerce_values.
  exists (Long y (m_month m) (m_code m) (m_source m) (m_value m)).
  split; [|reflexivity].
  apply in_map_iff. exists (m_code m, m_month m). split.
  - unfold Actual.reindex_row. cbn [fst snd].
    assert (L : Actual.label_of (Actual.add_date y m)
                = (m_code m, Some (m_month m))).
    { rewrite label_of_add_date. now rewrite month_word_canonical. }
    rewrite <- L. rewrite find_unique_label.
    + reflexivity.
    + exact U.
    + now apply in_map.
  - unfold Actual.from_product. apply in_flat_map. exists (m_code m). split.
    + apply in_unique. rewrite map_map. apply in_map_iff. now exists m.
    + apply in_map_iff. now exists (m_month m).
Qed.

End ActualFacts.

(** ** The two transformations compared with their description *)

Section Transformations.
Context {num : Type} `{Numeric num}.
Import PyStr Regex Props PyStrFacts RegexFacts.

Lemma map_flat_map {A B C} (f : B -> C) (g : A -> list B) l :
  map f (flat_map g l) = flat_map (fun a => map f (g a)) l.
Proof.
  induction l as [|a l IH]; [reflexivity|].
  cbn [flat_map]. now rewrite map_app, IH.
Qed.

Lemma flat_map_enumerate {A B} (g : A -> list B) (l : list A) a :
  flat_map (fun jm => g (snd jm)) (combine (seq a (length l)) l)
  = flat_map g l.
Proof.
  revert a. induction l as [|x l IH]; intros a; [reflexivity|].
  cbn [length seq combine flat_map snd]. now rewrite IH.
Qed.

(** The (code, month) pairs of the table of [Estimate_Revenue.py]: one
    per month column and row kept, column after column. *)
Lemma estimate_pairs file_name (df : frame num) out :
  Estimate.transform file_name df = inr out ->
  map (fun x => (Revenue_Code x, Month x)) out
  = flat_map (fun label =>
                map (fun r => (clean_cell (code r), label))
                    (rows (Estimate.validated df)))
             (month_cols (Estimate.validated df)).
Proof.
  intros E. apply estimate_transform_inr in E as (y & _ & ->).
  unfold coerce_values, melt. rewrite !map_map, map_flat_map.
  rewrite month_cols_clean, rows_clean.
  rewrite <- (flat_map_enumerate _ (month_cols (Estimate.validated df)) 0).
  unfold enumerate. apply flat_map_ext. intros [j label].
  unfold melt_column. rewrite !map_map. now apply map_ext.
Qed.

(** C1 (amended).  When [Actual_Revenue.py] produces a table from a frame
    with at least one month column, every code of the frame it kept has
    exactly twelve records in the table, one per canonical month in
    calendar order (hence no repeated code and month), and a record whose
    code and month are filed nowhere in the source has a missing Value.
    [Estimate_Revenue.py] does not complete the calendar: its table
    holds one record per month column and row kept. *)
Theorem C1_twelve_months_per_code file_name (df : frame num) :
  (forall v out,
      Actual.transform file_name df = inr out ->
      Actual.validated df = inr v ->
      month_cols df <> [] ->
      (forall r, In r (rows v) ->
                 map (@Month num) (records_of (clean_cell (code r)) out)
                 = month_order
                 /\ length (records_of (clean_cell (code r)) out) = 12)
      /\ (forall x, In x out ->
                    (forall m, In m (melt (clean v)) ->
                               ~ (m_code m = Revenue_Code x
                                  /\ month_word (m_month m)
                                     = Some (Month x))) ->
                    Value x = CNA))
  /\ (forall out,
        Estimate.transform file_name df = inr out ->
        map (fun x => (Revenue_Code x, Month x)) out
        = flat_map (fun label =>
                      map (fun r => (clean_cell (code r), label))
                          (rows (Estimate.validated df)))
                   (month_cols (Estimate.validated df))).
Proof.
  split; [|intros out; apply estimate_pairs].
  intros v out E Hv Hcols. split.
  - intros r Hr.
    assert (M : map (@Month num) (records_of (clean_cell (code r)) out)
                = month_order).
    { pose proof E as E'.
      apply actual_transform_inr in E' as (v' & y & Hv' & Hy & U & ->).
      assert (v' = v) by congruence. subst v'.
      unfold records_of, coerce_values.
      rewrite map_map, filter_map_comm, map_map.
      set (dff := map (Actual.add_date y) (melt (clean v))) in *.
      rewrite (filter_ext _ (fun cm => cell_eqb (fst cm)
                                                (clean_cell (code r)))).
      2:{ intros cm. unfold coerce_record. cbn [Revenue_Code].
          now destruct (reindex_row_key y dff cm) as (-> & _ & _). }
      rewrite (map_ext _ snd).
      2:{ intros cm. unfold coerce_record. cbn [Month].
          now destruct (reindex_row_key y dff cm) as (_ & -> & _). }
      rewrite filter_from_product.
      - rewrite map_map. cbn [snd]. apply map_id.
      - apply NoDup_unique.
      - apply in_unique. unfold dff. rewrite map_map.
        destruct (actual_validated_shape _ _ Hv) as [Hc _].
        destruct (month_cols df) as [|label cols] eqn:Ec;
          [congruence|].
        apply in_map_iff.
        exists (Melted (code (clean_row r)) (source (clean_row r))
                       (strip label)
                       (nth 0 (values (clean_row r)) CNA)).
        split; [reflexivity|].
        apply in_melt. exists 0, (strip label), (clean_row r).
        repeat split.
        + rewrite month_cols_clean, Hc. reflexivity.
        + rewrite rows_clean. now apply in_map. }
    split; [exact M|].
    rewrite <- (length_map (@Month num)), M. reflexivity.
  - intros x Hx Habs.
    destruct (actual_transform_inr _ _ _ E) as (v' & y & Hv' & Hy & _).
    destruct (actual_record_origin _ _ _ _ _ _ E Hv Hy Hx)
      as (_ & _ & [(m & Hm & A & B & _)|(_ & _ & V)]); [|exact V].
    exfalso. now apply (Habs m Hm).
Qed.

(** C2 (amended).  Every record of the table of [Estimate_Revenue.py]
    carries a code of the form DDDD.DD.DD, and a row whose first cell
    fails the pattern adds nothing to that table: the table is the same
    with the row taken out of the frame.  [Actual_Revenue.py] keeps every
    row down to the last row whose first cell matches, whether the rows
    above it match or not, and drops the rows below it. *)
Theorem C2_code_pattern file_name cols (rs1 rs2 : list (row num)) r :
  (forall (df : frame num) out x,
      Estimate.transform file_name df = inr out -> In x out ->
      exists s, Revenue_Code x = CStr s /\ code_exact s = true)
  /\ (is_code (code r) = false ->
      Estimate.transform file_name (Frame cols (rs1 ++ r :: rs2))
      = Estimate.transform file_name (Frame cols (rs1 ++ rs2)))
  /\ (is_code (code r) = true ->
      (forall r', In r' rs2 -> is_code (code r') = false) ->
      Actual.validated (Frame cols (rs1 ++ r :: rs2))
      = inr (Frame (map strip cols) (rs1 ++ [r]))
      /\ Actual.transform file_name (Frame cols (rs1 ++ r :: rs2))
         = Actual.transform file_name (Frame cols (rs1 ++ [r]))).
Proof.
  split; [|split].
  - intros df out x. apply estimate_codes_exact.
  - intros N. unfold Estimate.transform.
    now rewrite (estimate_validated_drop cols rs1 rs2 r N).
  - intros M N.
    pose proof (actual_validated_upto cols rs1 rs2 r M N) as V.
    split; [exact V|].
    assert (V0 : Actual.validated (Frame cols (rs1 ++ [r]))
                 = inr (Frame (map strip cols) (rs1 ++ [r])))
      by (apply actual_validated_upto; [exact M|intros r' []]).
    unfold Actual.transform. now rewrite V, V0.
Qed.

(** C3 (amended).  On a frame none of whose rows matches the pattern,
    [Actual_Revenue.py] stops with the IndexError of taking the last
    label of an empty index, and [Estimate_Revenue.py] does not fail for
    that reason: it hands the empty table to the sink (or raises the
    ValueError of a file name without a year). *)
Theorem C3_no_matching_row file_name (df : frame num) :
  (forall r, In r (rows df) -> is_code (code r) = false) ->
  Actual.transform file_name df = raise IndexError msg_empty_index
  /\ Estimate.transform file_name df
     = match extract_year file_name with
       | Some _ => ret []
       | None => raise ValueError msg_no_year_estimate
       end.
Proof.
  intros N. split.
  - unfold Actual.transform. now rewrite (actual_validated_no_code df N).
  - unfold Estimate.transform, Estimate.validated, Estimate.keep_codes.
    rewrite (filter_none _ (rows (strip_columns df))) by exact N.
    rewrite clean_unfold. cbn [rows month_cols map].
    now rewrite melt_no_rows.
Qed.

Lemma estimate_years file_name (df : frame num) out y :
  extract_year file_name = Some y ->
  Estimate.transform file_name df = inr out ->
  Forall (fun x => Year x = y) out.
Proof.
  intros Hy E. apply estimate_transform_inr in E as (y' & Hy' & ->).
  assert (y' = y) by congruence. subst y'.
  apply Forall_forall. intros x Hx.
  apply in_coerce_values in Hx as (x0 & Hx0 & ->).
  now apply in_map_iff in Hx0 as (m & <- & _).
Qed.

Lemma actual_years file_name (df : frame num) out y :
  extract_year file_name = Some y ->
  Actual.transform file_name df = inr out ->
  Forall (fun x => Year x = y) out.
Proof.
  intros Hy E.
  destruct (actual_transform_inr _ _ _ E) as (v & y' & Hv & Hy' & _).
  apply Forall_forall. intros x Hx.
  now destruct (actual_record_origin _ _ _ _ _ _ E Hv Hy Hx) as [Y _].
Qed.

(** C4 (amended).  The year is the number written by the leftmost four
    digits that follow each other in the file name (the first four
    digits of the first run of four digits or more), and every record of
    the table of either script carries it.  When the name has no four
    digits in a row, [Estimate_Revenue.py] raises ValueError "No year
    found in filename", and [Actual_Revenue.py] raises its own ValueError
    unless the frame already failed for want of a matching row. *)
Theorem C4_year_from_file_name file_name :
  match year_search file_name with
  | Some digits =>
      (exists i,
          digits = substring i 4 file_name
          /\ four_digits_at file_name i = true
          /\ forall j, j < i -> four_digits_at file_name j = false)
      /\ extract_year file_name = Some (int_of_digits digits)
      /\ (forall (df : frame num) out,
            Estimate.transform file_name df = inr out ->
            Forall (fun x => Year x = int_of_digits digits) out)
      /\ (forall (df : frame num) out,
            Actual.transform file_name df = inr out ->
            Forall (fun x => Year x = int_of_digits digits) out)
  | None =>
      (forall i, four_digits_at file_name i = false)
      /\ (forall df : frame num,
            Estimate.transform file_name df
            = raise ValueError msg_no_year_estimate)
      /\ (forall df : frame num,
            Actual.transform file_name df
            = match Actual.validated df with
              | inl e => inl e
              | inr _ => raise ValueError msg_no_year_actual
              end)
  end.
Proof.
  destruct (year_search file_name) as [digits|] eqn:S.
  - assert (Y : extract_year file_name = Some (int_of_digits digits))
      by (unfold extract_year; now rewrite S).
    split; [now apply year_search_some|]. split; [exact Y|]. split.
    + intros df out. now apply estimate_years.
    + intros df out. now apply actual_years.
  - assert (Y : extract_year file_name = None)
      by (unfold extract_year; now rewrite S).
    split; [now apply year_search_none|]. split.
    + intros df. unfold Estimate.transform. now rewrite Y.
    + intros df. unfold Actual.transform.
      destruct (Actual.validated df); cbn [bind]; [reflexivity|].
      now rewrite Y.
Qed.

End Transformations.

(** C1, on the two-row sample: twelve records for each code. *)
Lemma C1_twelve_months_per_code_witness :
  let out := Props.table_of (Actual.transform Samples.file_name Samples.report) in
  map (@Month Z) (Props.records_of (CStr "2000.05.10") out) = month_order
  /\ length (Props.records_of (CStr "2000.05.10") out) = 12.
Proof.
  refine (proj1 (proj1 (C1_twelve_months_per_code Samples.file_name
                          Samples.report)
                       Samples.report _ _ _ _) Samples.blank_source _).
  - vm_compute. reflexivity.
  - vm_compute. reflexivity.
  - discriminate.
  - right. left. reflexivity.
Defined.

(** C1 as stated fails for [Estimate_Revenue.py]: a code that fills two
    rows of the sheet has twenty-four records, two per month. *)
Lemma C1_estimate_code_on_two_rows :
  exists out,
    Estimate.transform Samples.file_name Samples.repeated = inr out
    /\ length (Props.records_of (CStr "1000.01.01") out) = 24
    /\ ~ NoDup (map (fun x => (Revenue_Code x, Month x)) out).
Proof.
  eexists. split; [vm_compute; reflexivity|]. split; [reflexivity|].
  intros D. vm_compute in D. inversion D as [|? ? Hn _].
  apply Hn. left. reflexivity.
Qed.

(** C2, on a sheet with a title row above and a total row below the one
    code row: [Estimate_Revenue.py] gives the table of the code row alone,
    [Actual_Revenue.py] keeps the title row and the code row. *)
Lemma C2_code_pattern_witness :
  Estimate.transform Samples.file_name
    (Frame month_order ([Samples.sales] ++ Samples.total :: []))
  = Estimate.transform Samples.file_name
      (Frame month_order ([Samples.sales] ++ []))
  /\ Actual.validated
       (Frame month_order ([Samples.total] ++ Samples.sales :: [Samples.total]))
     = inr (Frame (map PyStr.strip month_order)
                  ([Samples.total] ++ [Samples.sales])).
Proof.
  split.
  - apply (proj1 (proj2 (C2_code_pattern Samples.file_name month_order
                           [Samples.sales] [] Samples.total))).
    reflexivity.
  - apply (proj2 (proj2 (C2_code_pattern Samples.file_name month_order
                           [Samples.total] [Samples.total] Samples.sales))).
    + reflexivity.
    + intros r' [<-|[]]. reflexivity.
Defined.

(** C2 as stated fails for [Actual_Revenue.py]: the row "TOTAL" above the
    code row fails the pattern and still has its twelve records in the
    table. *)
Lemma C2_actual_keeps_total_row :
  exists out,
    Actual.transform Samples.file_name Samples.with_total = inr out
    /\ is_code (code Samples.total) = false
    /\ length (Props.records_of (CStr "TOTAL") out) = 12.
Proof.
  eexists. split; [vm_compute; reflexivity|]. split; reflexivity.
Qed.

(** C3, on the sheet that holds the row "TOTAL" only. *)
Lemma C3_no_matching_row_witness :
  (forall r, In r (rows Samples.only_total) -> is_code (code r) = false)
  /\ Actual.transform Samples.file_name Samples.only_total
     = raise IndexError msg_empty_index
  /\ Estimate.transform Samples.file_name Samples.only_total = ret [].
Proof.
  assert (N : forall r, In r (rows Samples.only_total) ->
                        is_code (code r) = false)
    by (intros r [<-|[]]; reflexivity).
  split; [exact N|].
  exact (C3_no_matching_row Samples.file_name Samples.only_total N).
Defined.

(** C3 as stated fails: on the sheet that holds the row "TOTAL" only,
    [Estimate_Revenue.py] raises nothing and hands the empty table to the
    sink, and the loop prints that it loaded 0 rows. *)
Lemma C3_estimate_loads_empty_table :
  Estimate.transform Samples.file_name Samples.only_total = inr []
  /\ Estimate.stdout
       (Estimate.iteration (fun _ => ret Samples.only_total) Samples.to_sql
                           Samples.empty_world Samples.file_name)
     = [Estimate.Processing Samples.file_name;
        Estimate.Loaded 0 Samples.file_name].
Proof. split; reflexivity. Qed.

(** C4, on "2021 Report.xlsx": every record is stamped 2021. *)
Lemma C4_year_from_file_name_witness :
  Forall (fun x : LongRecord Z => Year x = 2021%Z)
         (Props.table_of
            (Estimate.transform Samples.file_name Samples.report)).
Proof.
  generalize (C4_year_from_file_name (num:=Z) Samples.file_name).
  change (Regex.year_search Samples.file_name) with (Some "2021").
  intros (_ & _ & E & _).
  apply (E Samples.report). vm_compute. reflexivity.
Defined.

(** C4 as stated fails on a name whose first run of digits is longer than
    four: the scripts take 2021 out of "20211", the first run of exactly
    four digits is "2020". *)
Lemma C4_first_run_longer_than_four :
  extract_year "Report 20211 v2020.xlsx" = Some 2021%Z
  /\ Props.first_run_of_exactly_four "Report 20211 v2020.xlsx"
     = Some 2020%Z.
Proof. split; reflexivity. Qed.

(** ** Values, sources and repeated labels *)

Section Records.
Context {num : Type} `{Numeric num}.
Import PyStr Regex Props PyStrFacts RegexFacts.

Lemma nth_clean_values (r : row num) j :
  nth j (values (clean_row r)) CNA = clean_cell (nth j (values r) CNA).
Proof.
  unfold clean_row. cbn [values].
  change (@CNA num) with (clean_cell (@CNA num)) at 1. apply map_nth.
Qed.

(** The row of the long table that a cell of the kept frame becomes. *)
Lemma melt_clean_cell (v : frame num) r j label :
  In r (rows v) -> nth_error (month_cols v) j = Some label ->
  In (Melted (clean_cell (code r)) (source (clean_row r)) label
             (clean_cell (nth j (values r) CNA)))
     (melt (clean v)).
Proof.
  intros Hr Hj. apply in_melt. exists j, label, (clean_row r).
  rewrite month_cols_clean, rows_clean, nth_clean_values.
  repeat split; [exact Hj|now apply in_map].
Qed.

(** C7 (amended).  When a script produces a table, every cell of a month
    column of the frame it kept is in the table as a record with the
    cleaned code of its row, the label of its column and its cleaned
    value coerced to a number; for [Actual_Revenue.py] this holds for the
    columns whose label is a canonical month name.  Coercion keeps a
    number as it is, turns a string into the number it parses to or into
    a missing value, keeps the number of records and changes no field
    other than Value. *)
Theorem C7_cells_carried_through file_name (df : frame num) out y :
  extract_year file_name = Some y ->
  (Estimate.transform file_name df = inr out ->
   forall r j label,
     In r (rows (Estimate.validated df)) ->
     nth_error (month_cols (Estimate.validated df)) j = Some label ->
     In (Long y label (clean_cell (code r)) (source (clean_row r))
              (to_numeric (clean_cell (nth j (values r) CNA))))
        out)
  /\ (forall v,
        Actual.transform file_name df = inr out ->
        Actual.validated df = inr v ->
        forall r j label,
          In r (rows v) ->
          nth_error (month_cols v) j = Some label ->
          In label month_order ->
          In (Long y label (clean_cell (code r)) (source (clean_row r))
                   (to_numeric (clean_cell (nth j (values r) CNA))))
             out)
  /\ (forall t : list (LongRecord num),
        length (coerce_values t) = length t
        /\ map keys_of (coerce_values t) = map keys_of t)
  /\ (forall x : num, to_numeric (CNum x) = CNum x)
  /\ (forall s, to_numeric (CStr s : cell num)
                = match parse_num s with
                  | Some x => CNum x
                  | None => CNA
                  end).
Proof.
  intros Hy. split; [|split; [|split; [|split]]].
  - intros E r j label Hr Hj.
    apply estimate_transform_inr in E as (y' & Hy' & ->).
    assert (y' = y) by congruence. subst y'.
    apply in_coerce_values.
    exists (Long y label (clean_cell (code r)) (source (clean_row r))
                 (clean_cell (nth j (values r) CNA))).
    split; [|reflexivity].
    apply in_map_iff.
    exists (Melted (clean_cell (code r)) (source (clean_row r)) label
                   (clean_cell (nth j (values r) CNA))).
    split; [reflexivity|]. apply melt_clean_cell; assumption.
  - intros v E Hv r j label Hr Hj Hlabel.
    exact (actual_record_present _ _ _ _ _ _ E Hv Hy
             (melt_clean_cell v r j label Hr Hj) Hlabel).
  - intros t. split; [apply length_map|apply keys_coerce_values].
  - reflexivity.
  - reflexivity.
Qed.

Lemma clean_row_source (r : row num) :
  (isna (clean_cell (source r)) = true ->
   source (clean_row r) = clean_cell (code r))
  /\ (isna (clean_cell (code r)) = false ->
      isna (source (clean_row r)) = false).
Proof.
  unfold clean_row. cbn [source].
  destruct (isna (clean_cell (source r))) eqn:E; split; congruence.
Qed.

(** C9 (amended).  Cleaning gives a row whose source is missing its
    cleaned code as source, so that a row with a code has a source.
    Every record of the table of [Estimate_Revenue.py] has a source.  A
    record of the table of [Actual_Revenue.py] either carries the code
    and the source of a row of the frame the script kept, or was added
    by the reindexing for a code and month filed nowhere, and then its
    source and its value are missing. *)
Theorem C9_source_label file_name (df : frame num) out :
  (forall r : row num,
      (isna (clean_cell (source r)) = true ->
       source (clean_row r) = clean_cell (code r))
      /\ (isna (clean_cell (code r)) = false ->
          isna (source (clean_row r)) = false))
  /\ (Estimate.transform file_name df = inr out ->
      forall x, In x out -> isna (Revenue_Source x) = false)
  /\ (forall v x,
        Actual.transform file_name df = inr out ->
        Actual.validated df = inr v ->
        In x out ->
        (exists r, In r (rows v)
                   /\ Revenue_Code x = clean_cell (code r)
                   /\ Revenue_Source x = source (clean_row r))
        \/ (Revenue_Source x = CNA /\ Value x = CNA
            /\ forall m, In m (melt (clean v)) ->
                         ~ (m_code m = Revenue_Code x
                            /\ month_word (m_month m)
                               = Some (Month x)))).
Proof.
  split; [exact clean_row_source|]. split.
  - intros E x Hx. apply estimate_transform_inr in E as (y & _ & ->).
    apply in_coerce_values in Hx as (x0 & Hx0 & ->).
    apply in_map_iff in Hx0 as (m & <- & Hm).
    apply in_melt in Hm as (j & label & r & _ & Hr & ->).
    cbn [coerce_record Revenue_Source Estimate.final_row m_source].
    rewrite rows_clean in Hr. apply in_map_iff in Hr as (r0 & <- & Hr0).
    unfold Estimate.validated, Estimate.keep_codes in Hr0.
    cbn [rows] in Hr0. apply filter_In in Hr0 as [_ M].
    apply clean_row_source.
    destruct (is_code_clean _ M) as (s & -> & _). reflexivity.
  - intros v x E Hv Hx.
    destruct (actual_transform_inr _ _ _ E) as (v' & y & _ & Hy & _).
    destruct (actual_record_origin _ _ _ _ _ _ E Hv Hy Hx)
      as (_ & _ & [(m & Hm & A & _ & S & _)|(N & S & V)]).
    + left. apply in_melt in Hm as (j & label & r & _ & Hr & ->).
      rewrite rows_clean in Hr. apply in_map_iff in Hr as (r0 & <- & Hr0).
      exists r0. cbn [m_code m_source] in *. now repeat split.
    + right. now repeat split.
Qed.

(** C10.  When two rows of the long table of [Actual_Revenue.py] have
    the same code and are filed under the same month (the same column
    label, or labels with the same first word), the script raises and
    produces no table; the exception is the ValueError of [reindex] as
    soon as the file name holds a year. *)
Theorem C10_repeated_code_and_month file_name (df v : frame num)
        i j mi mj :
  Actual.validated df = inr v ->
  i <> j ->
  nth_error (melt (clean v)) i = Some mi ->
  nth_error (melt (clean v)) j = Some mj ->
  m_code mi = m_code mj ->
  month_word (m_month mi) = month_word (m_month mj) ->
  (exists e, Actual.transform file_name df = inl e)
  /\ (forall y, extract_year file_name = Some y ->
                Actual.transform file_name df
                = raise ValueError msg_duplicate_labels).
Proof.
  intros Hv Hij Hi Hj Hc Hm.
  assert (R : forall y, extract_year file_name = Some y ->
                        Actual.transform file_name df
                        = raise ValueError msg_duplicate_labels).
  { intros y Hy. unfold Actual.transform. rewrite Hv. cbn [bind].
    rewrite Hy. unfold Actual.reindex.
    destruct (Actual.is_unique _) eqn:U; [|reflexivity].
    exfalso. apply Hij. apply is_unique_NoDup in U.
    apply (proj1 (NoDup_nth_error _) U).
    - rewrite !length_map. apply nth_error_Some. congruence.
    - rewrite !nth_error_map, Hi, Hj. cbn [option_map].
      rewrite !label_of_add_date. now rewrite Hc, Hm. }
  split; [|exact R].
  destruct (extract_year file_name) as [y|] eqn:Hy.
  - eexists. now apply (R y).
  - eexists. unfold Actual.transform. rewrite Hv. cbn [bind].
    rewrite Hy. reflexivity.
Qed.

End Records.

(** C7, on the two-row sample read from "2021 Report.xlsx": the February
    cell "-" of the first row is in the table of [Actual_Revenue.py] with a
    missing value. *)
Lemma C7_cells_carried_through_witness :
  extract_year Samples.file_name = Some 2021%Z
  /\ In (Long 2021%Z "February" (CStr "1000.01.01") (CStr "Sales") CNA)
        (Props.table_of
           (Actual.transform Samples.file_name Samples.report)).
Proof.
  split; [reflexivity|].
  refine (proj1 (proj2 (C7_cells_carried_through Samples.file_name
                          Samples.report _ 2021%Z eq_refl))
                Samples.report _ _ Samples.sales 1 "February" _ _ _).
  - vm_compute. reflexivity.
  - vm_compute. reflexivity.
  - left. reflexivity.
  - reflexivity.
  - right. left. reflexivity.
Defined.

(** C7 as stated fails for [Actual_Revenue.py] on a sheet whose month
    columns are labelled Jan to Dec: the frame kept holds 100 under "Jan"
    for the code, the table holds no record for "Jan", and its one record
    for January has a missing value. *)
Lemma C7_actual_loses_abbreviated_months :
  exists v out,
    Actual.validated Samples.abbreviated = inr v
    /\ Actual.transform Samples.file_name Samples.abbreviated = inr out
    /\ In Samples.sales (rows v)
    /\ nth_error (month_cols v) 0 = Some "Jan"
    /\ nth 0 (values Samples.sales) CNA = CNum 100%Z
    /\ existsb (fun x => String.eqb (Month x) "Jan") out = false
    /\ map (@Value Z) (filter (fun x => String.eqb (Month x) "January") out)
       = [CNA].
Proof.
  do 2 eexists. split; [vm_compute; reflexivity|].
  split; [vm_compute; reflexivity|].
  split; [left; reflexivity|]. split; [reflexivity|].
  split; [reflexivity|]. split; reflexivity.
Qed.

(** C9, on the row with code "2000.05.10" and an empty source cell. *)
Lemma C9_source_label_witness :
  isna (clean_cell (source Samples.blank_source)) = true
  /\ source (Props.clean_row Samples.blank_source) = CStr "2000.05.10".
Proof.
  split; [reflexivity|].
  exact (proj1 (proj1 (C9_source_label Samples.file_name Samples.report [])
                      Samples.blank_source) eq_refl).
Defined.

(** C9 as stated fails for [Actual_Revenue.py] on a sheet whose month
    columns are labelled Jan to Dec: of the twelve records of the code,
    the eleven that the reindexing added have a missing source (May is
    its own abbreviation). *)
Lemma C9_actual_added_records_lack_source :
  exists out,
    Actual.transform Samples.file_name Samples.abbreviated = inr out
    /\ length out = 12
    /\ length (filter (fun x => isna (Revenue_Source x)) out) = 11.
Proof.
  eexists. split; [vm_compute; reflexivity|]. split; reflexivity.
Qed.

(** C10, on a sheet where the same code fills two rows. *)
Lemma C10_repeated_code_and_month_witness :
  Actual.transform Samples.file_name Samples.repeated
  = raise ValueError msg_duplicate_labels.
Proof.
  refine (proj2 (C10_repeated_code_and_month Samples.file_name
                   Samples.repeated Samples.repeated 0 1 _ _ _ _ _ _ _ _)
                2021%Z _).
  - vm_compute. reflexivity.
  - discriminate.
  - vm_compute. reflexivity.
  - vm_compute. reflexivity.
  - reflexivity.
  - reflexivity.
  - reflexivity.
Defined.

(** ** The loop over the files of the folder *)

Section Orchestrator.
Context {num : Type} `{Numeric num}.
Import PyStr Regex Props.

Variable read_excel : string -> result (frame num).
Variable to_sql : list (LongRecord num) -> option exn.

Lemma iteration_unfold (w : Estimate.world) file_name :
  Estimate.iteration read_excel to_sql w file_name
  = Estimate.World
      (Estimate.staging w ++ contribution read_excel to_sql file_name)
      (Estimate.stdout w
       ++ [Estimate.Processing file_name;
           report_of read_excel to_sql file_name]).
Proof.
  unfold Estimate.iteration, contribution, report_of, table_of.
  destruct (Estimate.process_file read_excel to_sql file_name);
    unfold Estimate.print; cbn [Estimate.staging Estimate.stdout];
    now rewrite <- app_assoc, ?app_nil_r.
Qed.

Lemma loop_unfold files (w : Estimate.world) :
  fold_left (Estimate.iteration read_excel to_sql) files w
  = Estimate.World
      (Estimate.staging w
       ++ flat_map (contribution read_excel to_sql) files)
      (Estimate.stdout w
       ++ flat_map (fun f => [Estimate.Processing f;
                              report_of read_excel to_sql f]) files).
Proof.
  revert w. induction files as [|f files IH]; intros w; cbn [fold_left].
  - cbn [flat_map]. rewrite !app_nil_r. now destruct w.
  - rewrite IH, iteration_unfold.
    cbn [Estimate.staging Estimate.stdout flat_map].
    now rewrite <- !app_assoc.
Qed.

(** C8.  One turn of the loop, from any state of the staging table and
    of the output.  When [read_excel] raises, when the transformation
    raises (in particular for want of a year in the file name), or when
    the sink refuses the table, the turn leaves the staging table as it
    was and prints the line that names the file and carries the message
    of the exception; when all three go through, it appends the table
    and prints the number of rows loaded.  The loop deals with every
    file in turn, whatever happened to the files before it: the staging
    table ends with the tables of the files that went through and nothing
    of the others, the output holds one report per file, and whenever the
    folder holds a workbook the script ends normally, after the line that
    all files were processed. *)
Theorem C8_failures_are_isolated (w : Estimate.world) :
  let failed := fun f e =>
    Estimate.World (Estimate.staging w)
                   (Estimate.stdout w
                    ++ [Estimate.Processing f;
                        Estimate.Failed f (str_of_exn e)]) in
  let rows := fun f =>
    match read_excel f with
    | inl _ => []
    | inr df =>
        match Estimate.transform f df with
        | inl _ => []
        | inr t => match to_sql t with
                   | Some _ => []
                   | None => t
                   end
        end
    end in
  let line := fun f =>
    match read_excel f with
    | inl e => Estimate.Failed f (str_of_exn e)
    | inr df =>
        match Estimate.transform f df with
        | inl e => Estimate.Failed f (str_of_exn e)
        | inr t => match to_sql t with
                   | Some e => Estimate.Failed f (str_of_exn e)
                   | None => Estimate.Loaded (length t) f
                   end
        end
    end in
  (forall f e,
      read_excel f = inl e ->
      Estimate.iteration read_excel to_sql w f = failed f e)
  /\ (forall f df e,
        read_excel f = inr df ->
        Estimate.transform f df = inl e ->
        Estimate.iteration read_excel to_sql w f = failed f e)
  /\ (forall f df,
        read_excel f = inr df ->
        extract_year f = None ->
        Estimate.iteration read_excel to_sql w f
        = failed f (Raise ValueError msg_no_year_estimate))
  /\ (forall f df t e,
        read_excel f = inr df ->
        Estimate.transform f df = inr t ->
        to_sql t = Some e ->
        Estimate.iteration read_excel to_sql w f = failed f e)
  /\ (forall f df t,
        read_excel f = inr df ->
        Estimate.transform f df = inr t ->
        to_sql t = None ->
        Estimate.iteration read_excel to_sql w f
        = Estimate.World (Estimate.staging w ++ t)
                         (Estimate.stdout w
                          ++ [Estimate.Processing f;
                              Estimate.Loaded (length t) f]))
  /\ (forall files,
        fold_left (Estimate.iteration read_excel to_sql) files w
        = Estimate.World
            (Estimate.staging w ++ flat_map rows files)
            (Estimate.stdout w
             ++ flat_map (fun f => [Estimate.Processing f; line f]) files))
  /\ (forall listing,
        Estimate.excel_files listing <> [] ->
        Estimate.main read_excel to_sql listing w
        = ret (Estimate.print Estimate.AllProcessed
                 (fold_left (Estimate.iteration read_excel to_sql)
                            (Estimate.excel_files listing) w))).
Proof.
  cbv zeta.
  assert (F : forall f e,
             Estimate.process_file read_excel to_sql f = inl e ->
             Estimate.iteration read_excel to_sql w f
             = Estimate.World (Estimate.staging w)
                 (Estimate.stdout w
                  ++ [Estimate.Processing f;
                      Estimate.Failed f (str_of_exn e)])).
  { intros f e E. rewrite iteration_unfold.
    unfold contribution, report_of, table_of. rewrite E.
    now rewrite app_nil_r. }
  repeat apply conj.
  - intros f e R. apply F. unfold Estimate.process_file.
    now rewrite R.
  - intros f df e R T. apply F. unfold Estimate.process_file.
    rewrite R. cbn [bind]. now rewrite T.
  - intros f df R Y. apply F. unfold Estimate.process_file.
    rewrite R. cbn [bind]. unfold Estimate.transform. now rewrite Y.
  - intros f df t e R T S. apply F. unfold Estimate.process_file.
    rewrite R. cbn [bind]. rewrite T. cbn [bind]. now rewrite S.
  - intros f df t R T S. rewrite iteration_unfold.
    unfold contribution, report_of, table_of, Estimate.process_file.
    rewrite R. cbn [bind]. rewrite T. cbn [bind]. now rewrite S.
  - intros files. rewrite loop_unfold. f_equal; f_equal.
    + apply flat_map_ext. intros f.
      unfold contribution, table_of, Estimate.process_file.
      destruct (read_excel f) as [e|df]; [reflexivity|]. cbn [bind].
      destruct (Estimate.transform f df) as [e|t]; [reflexivity|].
      cbn [bind]. now destruct (to_sql t).
    + apply flat_map_ext. intros f. f_equal. f_equal.
      unfold report_of, Estimate.process_file.
      destruct (read_excel f) as [e|df]; [reflexivity|]. cbn [bind].
      destruct (Estimate.transform f df) as [e|t]; [reflexivity|].
      cbn [bind]. now destruct (to_sql t).
  - intros listing N. unfold Estimate.main.
    now destruct (Estimate.excel_files listing).
Qed.

End Orchestrator.

(** C8, on a folder with a workbook that cannot be read and a good one:
    the run ends normally, the staging table holds the 24 rows of the good
    workbook, and the output names the broken one with its message. *)
Lemma C8_failures_are_isolated_witness :
  Estimate.excel_files Samples.listing <> []
  /\ exists w,
      Estimate.main Samples.read_excel Samples.to_sql Samples.listing
                    Samples.empty_world = inr w
      /\ length (Estimate.staging w) = 24
      /\ Estimate.stdout w
         = [Estimate.Processing "broken.xlsx";
            Estimate.Failed "broken.xlsx" "File is not a zip file";
            Estimate.Processing "2021 Report.XLSX";
            Estimate.Loaded 24 "2021 Report.XLSX";
            Estimate.AllProcessed].
Proof.
  assert (N : Estimate.excel_files Samples.listing <> [])
    by (vm_compute; discriminate).
  split; [exact N|].
  eexists. split.
  - exact (proj2 (proj2 (proj2 (proj2 (proj2 (proj2
             (C8_failures_are_isolated Samples.read_excel Samples.to_sql
                                       Samples.empty_world))))))
                 Samples.listing N).
  - split; vm_compute; reflexivity.
Defined.

(* ================================================================= *)
(** * Further properties of the scripts *)

(** ** The pattern, the year and the Date column *)

Module PatternFacts.
Import PyStr Regex Props PyStrFacts RegexFacts.

Lemma match_classes_length cs core :
  match_classes cs core = Some EmptyString ->
  String.length core = List.length cs.
Proof.
  revert core. induction cs as [|p cs IH]; intros core M; simpl in M.
  - now injection M as ->.
  - destruct core as [|c core]; [discriminate|].
    destruct (p c); [|discriminate]. simpl. f_equal. now apply IH.
Qed.

Lemma code_exact_facts core :
  code_exact core = true -> String.length core = 10 /\ no_space core.
Proof.
  unfold code_exact.
  destruct (match_classes code_classes core) as [rest|] eqn:M;
    [|discriminate].
  intros E. apply String.eqb_eq in E. subst rest. split.
  - exact (match_classes_length _ _ M).
  - destruct (match_classes_split _ code_classes_solid _ _ M)
      as (pre & E & N & _).
    rewrite append_empty in E. now subst pre.
Qed.

(** X1.  The pattern accepts exactly the strings DDDD.DD.DD, of ten
    characters, and those strings followed by one newline.  Since the rows
    are matched before the cells are cleaned, a code with white space in
    front of it is not taken for a code. *)
Theorem X1_code_match_shape s :
  (code_match s = true <->
   exists core,
     code_exact core = true /\ String.length core = 10 /\ no_space core
     /\ (s = core \/ s = (core ++ String newline EmptyString)%string))
  /\ (forall c rest, s = String c rest -> is_space c = true ->
                     code_match s = false).
Proof.
  assert (A : code_match s = true ->
              exists core,
                code_exact core = true /\ String.length core = 10
                /\ no_space core
                /\ (s = core
                    \/ s = (core ++ String newline EmptyString)%string)).
  { unfold code_match.
    destruct (match_classes code_classes s) as [rest|] eqn:M;
      [|discriminate].
    destruct (match_classes_split _ code_classes_solid _ _ M)
      as (pre & -> & N & R).
    intros E. exists pre.
    assert (X : code_exact pre = true).
    { unfold code_exact. rewrite <- (append_empty pre), R. reflexivity. }
    split; [exact X|]. split; [apply (code_exact_facts _ X)|].
    split; [exact N|].
    apply orb_true_iff in E as [E|E]; apply String.eqb_eq in E; subst rest.
    - left. apply append_empty.
    - now right. }
  split; [split; [exact A|]|].
  - intros (core & X & _ & _ & [->| ->]).
    + now apply code_exact_match.
    + unfold code_exact in X. unfold code_match.
      destruct (match_classes code_classes core) as [rest|] eqn:M;
        [|discriminate].
      apply String.eqb_eq in X. subst rest.
      destruct (match_classes_split _ code_classes_solid _ _ M)
        as (pre & E & _ & R).
      rewrite append_empty in E. subst pre. rewrite R. reflexivity.
  - intros c rest -> Hc.
    destruct (code_match (String c rest)) eqn:E; [|reflexivity].
    destruct (A eq_refl) as (core & _ & L & N & S).
    destruct core as [|d core]; [discriminate|].
    assert (d = c) by (destruct S as [S|S]; now injection S). subst d.
    rewrite (N c) in Hc by now left. discriminate.
Qed.

Lemma is_digit_value c :
  is_digit c = true -> (0 <= digit_value c <= 9)%Z.
Proof.
  unfold is_digit, digit_value. intros E.
  apply andb_true_iff in E as [A B].
  apply Nat.leb_le in A, B. lia.
Qed.

Lemma year_search_digits s digits :
  year_search s = Some digits ->
  exists a b c d,
    digits = String a (String b (String c (String d EmptyString)))
    /\ is_digit a = true /\ is_digit b = true
    /\ is_digit c = true /\ is_digit d = true.
Proof.
  induction s as [|x s IH]; [discriminate|].
  intros E. cbn [year_search] in E.
  destruct (match_classes year_classes (String x s)) as [rest|] eqn:M;
    [|exact (IH E)].
  injection E as <-. unfold year_classes in M. cbn [match_classes] in M.
  destruct (is_digit x) eqn:Da; [|discriminate].
  destruct s as [|b s]; [discriminate|].
  destruct (is_digit b) eqn:Db; [|discriminate].
  destruct s as [|c s]; [discriminate|].
  destruct (is_digit c) eqn:Dc; [|discriminate].
  destruct s as [|d s]; [discriminate|].
  destruct (is_digit d) eqn:Dd; [|discriminate].
  exists x, b, c, d. repeat split; try assumption.
  now destruct s.
Qed.

(** X2.  The year taken from a file name lies between 0 and 9999. *)
Theorem X2_year_range file_name y :
  extract_year file_name = Some y -> (0 <= y <= 9999)%Z.
Proof.
  unfold extract_year.
  destruct (year_search file_name) as [digits|] eqn:S; [|discriminate].
  intros E. injection E as <-.
  destruct (year_search_digits _ _ S)
    as (a & b & c & d & -> & Da & Db & Dc & Dd).
  apply is_digit_value in Da, Db, Dc, Dd.
  unfold int_of_digits. cbn [list_ascii_of_string fold_left]. lia.
Qed.

Lemma runs_whole sep d :
  d <> EmptyString ->
  (forall c, In c (list_ascii_of_string d) -> sep c = false) ->
  runs sep d = [d].
Proof.
  induction d as [|c d IH]; intros Hd N; [congruence|].
  rewrite runs_step by (apply N; now left).
  destruct d as [|c' d]; [reflexivity|].
  rewrite (N c') by (right; now left).
  rewrite IH; [reflexivity|discriminate|].
  intros x Hx. apply N. now right.
Qed.

Lemma lstrip_empty_runs s :
  lstrip s = EmptyString -> runs is_space s = [].
Proof.
  induction s as [|c s IH]; [reflexivity|]. cbn [lstrip].
  destruct (is_space c) eqn:E; [|discriminate].
  intros L. rewrite runs_sep by exact E. now apply IH.
Qed.

Lemma strip_empty_lstrip s :
  strip s = EmptyString -> lstrip s = EmptyString.
Proof.
  unfold strip. destruct (lstrip_shape s) as [E|(c & t & E & Ec)];
    [trivial|].
  rewrite E, (rstrip_head _ _ Ec). discriminate.
Qed.

(** X3.  The month that [Actual_Revenue.py] reads back from its Date
    column is the first word of the column label, whatever the year: a
    label of one word comes back whole, a label that is empty or blank
    comes back as a missing month. *)
Theorem X3_date_round_trip (y : Z) (label : string) :
  Actual.month_of_date (str_of_int y ++ " " ++ label)%string
  = month_word label
  /\ (label <> EmptyString -> no_space label ->
      month_word label = Some label)
  /\ (strip label = EmptyString -> month_word label = None).
Proof.
  split; [|split].
  - unfold Actual.month_of_date, month_word. now rewrite split_date.
  - intros Hl N. unfold month_word, split.
    now rewrite (runs_whole _ _ Hl N).
  - intros E. unfold month_word, split.
    now rewrite (lstrip_empty_runs _ (strip_empty_lstrip _ E)).
Qed.

End PatternFacts.

(** X1, on a code behind a blank. *)
Lemma X1_code_match_shape_witness :
  PyStr.is_space " "%char = true
  /\ Regex.code_match " 1000.01.01" = false.
Proof.
  split; [reflexivity|].
  exact (proj2 (PatternFacts.X1_code_match_shape " 1000.01.01")
               " "%char "1000.01.01" eq_refl eq_refl).
Defined.

(** X2, on "2021 Report.xlsx". *)
Lemma X2_year_range_witness :
  extract_year Samples.file_name = Some 2021%Z
  /\ (0 <= 2021 <= 9999)%Z.
Proof.
  split; [reflexivity|].
  exact (PatternFacts.X2_year_range Samples.file_name 2021%Z eq_refl).
Defined.

(** X3, on the label "March". *)
Lemma X3_date_round_trip_witness :
  "March" <> EmptyString
  /\ Props.month_word "March" = Some "March".
Proof.
  split; [discriminate|].
  apply (proj1 (proj2 (PatternFacts.X3_date_round_trip 2021%Z "March"))).
  - discriminate.
  - intros c Hc. cbn in Hc.
    repeat (destruct Hc as [<-|Hc]; [reflexivity|]). contradiction.
Defined.

(** ** The shape of the tables *)

Section Layout.
Context {num : Type} `{Numeric num}.
Import PyStr Regex Props Shapes PyStrFacts RegexFacts.

Lemma last_match_split {A} (f : A -> bool) (l : list A) :
  existsb f l = true ->
  exists l1 x l2,
    l = l1 ++ x :: l2 /\ f x = true
    /\ forall y, In y l2 -> f y = false.
Proof.
  induction l as [|a l IH]; [discriminate|]. cbn [existsb]. intros E.
  destruct (existsb f l) eqn:El.
  - destruct (IH eq_refl) as (l1 & x & l2 & -> & Fx & N).
    now exists (a :: l1), x, l2.
  - rewrite orb_false_r in E. exists [], a, l. repeat split; [exact E|].
    intros y Hy. destruct (f y) eqn:Fy; [|reflexivity].
    assert (X : existsb f l = true) by (apply existsb_exists; now exists y).
    congruence.
Qed.

(** X4.  [Actual_Revenue.py] stops with the IndexError of an empty index
    exactly when no row of the sheet matches the pattern.  Otherwise the
    frame it keeps is the sheet cut after its last matching row: every
    row above is kept, every row below fails the pattern and is
    dropped. *)
Theorem X4_actual_validated_cases (df : frame num) :
  ((forall r, In r (rows df) -> is_code (code r) = false)
   /\ Actual.validated df = raise IndexError msg_empty_index)
  \/ (exists kept r dropped,
         rows df = kept ++ r :: dropped
         /\ is_code (code r) = true
         /\ (forall r', In r' dropped -> is_code (code r') = false)
         /\ Actual.validated df
            = inr (Frame (map strip (month_cols df)) (kept ++ [r]))).
Proof.
  destruct (existsb (fun r => is_code (code r)) (rows df)) eqn:E.
  - right. destruct (last_match_split _ _ E) as (l1 & r & l2 & R & M & N).
    exists l1, r, l2. repeat split; try assumption.
    destruct df as [cols rs]. cbn [rows month_cols] in *. subst rs.
    now apply actual_validated_upto.
  - left.
    assert (N : forall r, In r (rows df) -> is_code (code r) = false).
    { intros r Hr. destruct (is_code (code r)) eqn:M; [|reflexivity].
      assert (X : existsb (fun r => is_code (code r)) (rows df) = true)
        by (apply existsb_exists; now exists r).
      congruence. }
    split; [exact N|]. now apply actual_validated_no_code.
Qed.

Lemma filter_andb {A} (f g : A -> bool) l :
  filter f (filter g l) = filter (fun x => f x && g x) l.
Proof.
  induction l as [|a l IH]; [reflexivity|]. cbn [filter].
  destruct (g a); cbn [filter]; rewrite ?andb_true_r, ?andb_false_r.
  - destruct (f a); now rewrite IH.
  - exact IH.
Qed.

Lemma unique_app (l l' : list (cell num)) :
  Actual.unique (l ++ l')
  = Actual.unique l
    ++ filter (fun d => negb (existsb (fun c => cell_eqb c d) l))
              (Actual.unique l').
Proof.
  induction l as [|c l IH]; cbn [app Actual.unique existsb].
  - symmetry. apply forallb_filter_id. now apply forallb_forall.
  - rewrite IH, filter_app, filter_andb. cbn [app]. do 2 f_equal.
    apply filter_ext. intros d. now rewrite negb_orb.
Qed.

Lemma unique_app_incl (l l' : list (cell num)) :
  (forall d, In d l' -> In d l) ->
  Actual.unique (l ++ l') = Actual.unique l.
Proof.
  intros I. rewrite unique_app, filter_none; [apply app_nil_r|].
  intros d Hd. apply negb_false_iff, existsb_exists. exists d.
  split; [|apply cell_eqb_refl]. apply I. now apply in_unique.
Qed.

Lemma codes_of_melt (df : frame num) :
  map (@m_code num) (melt df)
  = flat_map (fun _ => map (@code num) (rows df))
             (enumerate (month_cols df)).
Proof.
  unfold melt. rewrite map_flat_map. apply flat_map_ext. intros jm.
  unfold melt_column. rewrite map_map. reflexivity.
Qed.

Lemma unique_codes_of_melt (df : frame num) :
  month_cols df <> [] ->
  Actual.unique (map (@m_code num) (melt df))
  = Actual.unique (map (@code num) (rows df)).
Proof.
  intros N. rewrite codes_of_melt. unfold enumerate.
  destruct (month_cols df) as [|label cols]; [congruence|].
  cbn [length seq combine flat_map]. apply unique_app_incl.
  intros d Hd. now apply in_flat_map in Hd as (jm & _ & Hd).
Qed.

Lemma length_from_product (codes : list (cell num)) (months : list string) :
  length (Actual.from_product codes months) = length codes * length months.
Proof.
  unfold Actual.from_product.
  induction codes as [|c codes IH]; [reflexivity|].
  cbn [flat_map length]. now rewrite length_app, length_map, IH.
Qed.

(** X5.  The table of [Actual_Revenue.py] lists the distinct cleaned codes
    of the frame it kept in the order of their first row, each with the
    twelve canonical months in calendar order; it has twelve records per
    distinct code. *)
Theorem X5_actual_table_layout file_name (df v : frame num) out :
  Actual.transform file_name df = inr out ->
  Actual.validated df = inr v ->
  month_cols df <> [] ->
  map code_month out
  = Actual.from_product (distinct_codes (rows v)) month_order
  /\ length out = 12 * length (distinct_codes (rows v)).
Proof.
  intros E Hv Hcols.
  apply actual_transform_inr in E as (v' & y & Hv' & Hy & U & ->).
  assert (v' = v) by congruence. subst v'.
  set (dff := map (Actual.add_date y) (melt (clean v))) in *.
  assert (C : Actual.unique (map (@Actual.d_code num) dff)
              = distinct_codes (rows v)).
  { unfold dff, distinct_codes. rewrite map_map. cbn [Actual.add_date
      Actual.d_code].
    change (fun x : melted num => m_code x) with (@m_code num).
    rewrite unique_codes_of_melt.
    - now rewrite rows_clean, map_map.
    - rewrite month_cols_clean.
      destruct (actual_validated_shape _ _ Hv) as [-> _].
      destruct (month_cols df); [congruence|discriminate]. }
  rewrite C.
  assert (K : map code_month
                  (coerce_values
                     (map (Actual.reindex_row y dff)
                          (Actual.from_product (distinct_codes (rows v))
                                               month_order)))
              = Actual.from_product (distinct_codes (rows v)) month_order).
  { unfold coerce_values. rewrite !map_map.
    rewrite <- (map_id (Actual.from_product _ _)) at 2.
    apply map_ext. intros [c m]. unfold code_month, coerce_record.
    cbn [Revenue_Code Month].
    now destruct (reindex_row_key y dff (c, m)) as (-> & -> & _). }
  split; [exact K|].
  rewrite <- (length_map code_month), K, length_from_product.
  cbn [month_order length]. lia.
Qed.

Lemma length_melt (df : frame num) :
  length (melt df) = length (month_cols df) * length (rows df).
Proof.
  unfold melt, enumerate. generalize 0 as a.
  induction (month_cols df) as [|label cols IH]; intros a; [reflexivity|].
  cbn [length seq combine flat_map]. rewrite length_app, IH.
  unfold melt_column. now rewrite length_map.
Qed.

(** X6.  The transformation of [Estimate_Revenue.py] fails only for want
    of a year in the file name.  Otherwise its table (the rows it reports
    as loaded) has one record per month column and matching row of the
    sheet. *)
Theorem X6_estimate_table_size file_name (df : frame num) :
  match extract_year file_name with
  | Some _ =>
      exists out,
        Estimate.transform file_name df = inr out
        /\ length out
           = length (month_cols df)
             * length (filter (fun r => is_code (code r)) (rows df))
  | None =>
      Estimate.transform file_name df
      = raise ValueError msg_no_year_estimate
  end.
Proof.
  unfold Estimate.transform.
  destruct (extract_year file_name) as [y|]; [|reflexivity].
  eexists. split; [reflexivity|].
  unfold coerce_values. rewrite !length_map, length_melt.
  rewrite month_cols_clean, rows_clean, length_map.
  unfold Estimate.validated, Estimate.keep_codes, strip_columns.
  cbn [month_cols rows]. now rewrite length_map.
Qed.

Lemma to_numeric_not_text (c : cell num) : is_text (to_numeric c) = false.
Proof.
  destruct c as [s|x|]; cbn [to_numeric]; [|reflexivity|reflexivity].
  now destruct (parse_num s).
Qed.

(** X7.  No record handed to the sink by either script has a string as
    Value: after the coercion a value is a number or missing. *)
Theorem X7_values_are_numbers file_name (df : frame num) out x :
  Estimate.transform file_name df = inr out
  \/ Actual.transform file_name df = inr out ->
  In x out ->
  is_text (Value x) = false.
Proof.
  intros [E|E] Hx.
  - apply estimate_transform_inr in E as (y & _ & ->).
    apply in_coerce_values in Hx as (x0 & _ & ->).
    apply to_numeric_not_text.
  - destruct (actual_transform_inr _ _ _ E) as (v & y & Hv & Hy & _).
    destruct (actual_record_origin _ _ _ _ _ _ E Hv Hy Hx)
      as (_ & _ & [(m & _ & _ & _ & _ & ->)|(_ & _ & ->)]).
    + apply to_numeric_not_text.
    + reflexivity.
Qed.

Lemma clean_cell_trimmed (c : cell num) : trimmed (clean_cell c) = true.
Proof.
  destruct c as [s|x|]; try reflexivity.
  unfold clean_cell. cbn [replace_dash].
  destruct (String.eqb s "-"); [reflexivity|].
  cbn [strip_cell trimmed]. rewrite strip_idem. apply String.eqb_refl.
Qed.

Lemma clean_row_trimmed (r : row num) :
  trimmed (code (clean_row r)) = true
  /\ trimmed (source (clean_row r)) = true.
Proof.
  unfold clean_row. cbn [code source]. split; [apply clean_cell_trimmed|].
  destruct (isna (clean_cell (source r))); apply clean_cell_trimmed.
Qed.

Lemma melt_clean_trimmed (v : frame num) m :
  In m (melt (clean v)) ->
  trimmed (m_code m) = true /\ trimmed (m_source m) = true
  /\ In (m_month m) (month_cols v).
Proof.
  intros Hm. apply in_melt in Hm as (j & label & r & Hj & Hr & ->).
  rewrite rows_clean in Hr. apply in_map_iff in Hr as (r0 & <- & _).
  cbn [m_code m_source m_month].
  destruct (clean_row_trimmed r0) as [A B]. repeat split; try assumption.
  rewrite month_cols_clean in Hj. exact (nth_error_In _ _ Hj).
Qed.

(** X8.  The text fields of every record handed to the sink carry no
    white space at either end: the code and the source are cleaned cells,
    and the month is a stripped column label ([Estimate_Revenue.py]) or a
    canonical month name ([Actual_Revenue.py]). *)
Theorem X8_text_fields_trimmed file_name (df : frame num) out x :
  (Estimate.transform file_name df = inr out -> In x out ->
   trimmed (Revenue_Code x) = true /\ trimmed (Revenue_Source x) = true
   /\ In (Month x) (map strip (month_cols df))
   /\ strip (Month x) = Month x)
  /\ (Actual.transform file_name df = inr out -> In x out ->
      trimmed (Revenue_Code x) = true /\ trimmed (Revenue_Source x) = true
      /\ In (Month x) month_order
      /\ strip (Month x) = Month x).
Proof.
  split; intros E Hx.
  - apply estimate_transform_inr in E as (y & _ & ->).
    apply in_coerce_values in Hx as (x0 & Hx0 & ->).
    apply in_map_iff in Hx0 as (m & <- & Hm).
    destruct (melt_clean_trimmed _ _ Hm) as (A & B & C).
    cbn [coerce_record Estimate.final_row Revenue_Code Revenue_Source Month].
    repeat split; try assumption.
    unfold Estimate.validated, Estimate.keep_codes, strip_columns in C.
    cbn [month_cols] in C. apply in_map_iff in C as (l & <- & _).
    apply strip_idem.
  - destruct (actual_transform_inr _ _ _ E) as (v & y & Hv & Hy & _).
    destruct (actual_record_origin _ _ _ _ _ _ E Hv Hy Hx)
      as (_ & Hmo & O).
    assert (S : strip (Month x) = Month x).
    { revert Hmo. generalize (Month x). unfold month_order. cbn [In].
      intros mo Hm.
      repeat (destruct Hm as [<-|Hm]; [reflexivity|]). contradiction. }
    destruct O as [(m & Hm & C & _ & -> & _)|(_ & -> & _)].
    + destruct (melt_clean_trimmed _ _ Hm) as (A & B & _).
      rewrite <- C. now repeat split.
    + repeat split; try assumption.
      destruct (actual_transform_inr _ _ _ E) as (v' & y' & _ & _ & _ & Eo).
      rewrite Eo in Hx.
      apply in_coerce_values in Hx as (x0 & Hx0 & ->).
      apply in_map_iff in Hx0 as ([c mo] & <- & Hcm).
      unfold Actual.from_product in Hcm.
      apply in_flat_map in Hcm as (c' & Hc' & Hcm).
      apply in_map_iff in Hcm as (mo' & Ecm & _). injection Ecm as -> ->.
      apply (proj1 (in_unique _ _)) in Hc'.
      apply in_map_iff in Hc' as (d & <- & Hd).
      apply in_map_iff in Hd as (m & <- & Hm).
      cbn [coerce_record Revenue_Code Actual.add_date Actual.d_code].
      destruct (reindex_row_key y'
                  (map (Actual.add_date y') (melt (clean v'))) (m_code m, mo))
        as (-> & _ & _).
      cbn [fst]. exact (proj1 (melt_clean_trimmed _ _ Hm)).
Qed.

End Layout.

(** X5, on the two-row sample. *)
Lemma X5_actual_table_layout_witness :
  let out := Props.table_of
               (Actual.transform Samples.file_name Samples.report) in
  map Shapes.code_month out
  = Actual.from_product [CStr "1000.01.01"; CStr "2000.05.10"] month_order
  /\ length out = 24.
Proof.
  refine (X5_actual_table_layout Samples.file_name Samples.report
            Samples.report _ _ _ _).
  - vm_compute. reflexivity.
  - vm_compute. reflexivity.
  - discriminate.
Defined.

(** X7, on the February cell "-" of the sample. *)
Lemma X7_values_are_numbers_witness :
  let out := Props.table_of
               (Estimate.transform Samples.file_name Samples.report) in
  In (Long 2021%Z "February" (CStr "1000.01.01") (CStr "Sales") CNA) out
  /\ Shapes.is_text (CNA : cell Z) = false.
Proof.
  assert (I : In (Long 2021%Z "February" (CStr "1000.01.01")
                      (CStr "Sales") (CNA : cell Z))
                 (Props.table_of
                    (Estimate.transform Samples.file_name Samples.report)))
    by (vm_compute; do 2 right; left; reflexivity).
  split; [exact I|].
  refine (X7_values_are_numbers Samples.file_name Samples.report _ _ _ I).
  left. vm_compute. reflexivity.
Defined.

(** X8, on the first record of the sample. *)
Lemma X8_text_fields_trimmed_witness :
  let x := Long 2021%Z "January" (CStr "1000.01.01") (CStr "Sales")
                (CNum 100%Z) in
  In x (Props.table_of
          (Actual.transform Samples.file_name Samples.report))
  /\ Shapes.trimmed (Revenue_Code x) = true
  /\ Shapes.trimmed (Revenue_Source x) = true
  /\ In (Month x) month_order
  /\ PyStr.strip (Month x) = Month x.
Proof.
  assert (I : In (Long 2021%Z "January" (CStr "1000.01.01") (CStr "Sales")
                      (CNum 100%Z))
                 (Props.table_of
                    (Actual.transform Samples.file_name Samples.report)))
    by (vm_compute; left; reflexivity).
  split; [exact I|].
  refine (proj2 (X8_text_fields_trimmed Samples.file_name Samples.report
                   _ _) _ I).
  vm_compute. reflexivity.
Defined.

(** ** When the reindexing goes through, and the two scripts compared *)

Section Agreement.
Context {num : Type} `{Numeric num}.
Import PyStr Regex Props Shapes PyStrFacts RegexFacts.

Lemma labels_of_dated y (ms : list (melted num)) :
  map (@Actual.label_of num) (map (Actual.add_date y) ms)
  = map long_label ms.
Proof.
  rewrite map_map. apply map_ext. intros m. apply label_of_add_date.
Qed.

Lemma actual_table_iff file_name (df v : frame num) y :
  Actual.validated df = inr v ->
  extract_year file_name = Some y ->
  (exists out, Actual.transform file_name df = inr out)
  <-> NoDup (map long_label (melt (clean v))).
Proof.
  intros Hv Hy. unfold Actual.transform. rewrite Hv. cbn [bind].
  rewrite Hy. unfold Actual.reindex. rewrite labels_of_dated.
  destruct (Actual.is_unique (map long_label (melt (clean v)))) eqn:U.
  - split; [intros _; now apply is_unique_NoDup|].
    intros _. cbn [bind ret]. now eexists.
  - split.
    + intros (out & E). discriminate.
    + intros D. apply is_unique_NoDup in D. congruence.
Qed.

(** X9.  Once the frame is kept and the year found, [Actual_Revenue.py]
    produces a table exactly when no two rows of its long table are filed
    under the same code and month. *)
Theorem X9_actual_table_iff_labels_distinct file_name (df v : frame num) y :
  Actual.validated df = inr v ->
  extract_year file_name = Some y ->
  (exists out, Actual.transform file_name df = inr out)
  <-> NoDup (map long_label (melt (clean v))).
Proof. apply actual_table_iff. Qed.

Lemma NoDup_tagged {A B} (g : A -> B) (k : option string) (rs : list A) :
  NoDup (map g rs) -> NoDup (map (fun r => (g r, k)) rs).
Proof.
  induction rs as [|r rs IH]; cbn [map]; intros D; [constructor|].
  inversion D as [|? ? Hn D']; subst. constructor; [|now apply IH].
  intros I. apply Hn. apply in_map_iff in I as (r' & E & Hr').
  injection E as E. rewrite <- E. now apply in_map.
Qed.

Lemma NoDup_grid {A B} (g : A -> B) (f : string -> option string)
      (rs : list A) (cols : list string) :
  NoDup (map g rs) -> NoDup (map f cols) ->
  NoDup (flat_map (fun label => map (fun r => (g r, f label)) rs) cols).
Proof.
  intros Dr. induction cols as [|label cols IH]; cbn [map flat_map];
    intros Dc; [constructor|].
  inversion Dc as [|? ? Hn Dc']; subst. apply NoDup_app.
  - now apply NoDup_tagged.
  - now apply IH.
  - intros [b k] I1 I2. apply Hn.
    apply in_map_iff in I1 as (r & E1 & _). injection E1 as _ <-.
    apply in_flat_map in I2 as (label' & Hl' & I2).
    apply in_map_iff in I2 as (r' & E2 & _). injection E2 as _ E2.
    rewrite <- E2. now apply in_map.
Qed.

Lemma labels_of_melt (df : frame num) :
  map long_label (melt df)
  = flat_map (fun label =>
                map (fun r => (code r, month_word label)) (rows df))
             (month_cols df).
Proof.
  unfold melt. rewrite map_flat_map.
  rewrite <- (flat_map_enumerate _ (month_cols df) 0).
  unfold enumerate. apply flat_map_ext. intros [j label].
  unfold melt_column. rewrite map_map. reflexivity.
Qed.

(** X10.  The reindexing of [Actual_Revenue.py] goes through whenever the
    cleaned codes of the rows kept are pairwise distinct and the column
    labels have pairwise distinct first words: with a year in the file
    name the script then produces a table. *)
Theorem X10_actual_distinct_codes_suffice file_name (df v : frame num) y :
  Actual.validated df = inr v ->
  extract_year file_name = Some y ->
  NoDup (map (fun r => clean_cell (code r)) (rows v)) ->
  NoDup (map month_word (month_cols v)) ->
  exists out, Actual.transform file_name df = inr out.
Proof.
  intros Hv Hy Dr Dc. apply (actual_table_iff _ _ _ _ Hv Hy).
  rewrite labels_of_melt, month_cols_clean, rows_clean.
  apply NoDup_grid; [|exact Dc].
  rewrite map_map. exact Dr.
Qed.

Lemma estimate_validated_all (df : frame num) :
  (forall r, In r (rows df) -> is_code (code r) = true) ->
  Estimate.validated df = Frame (map strip (month_cols df)) (rows df).
Proof.
  intros A. unfold Estimate.validated, Estimate.keep_codes, strip_columns.
  cbn [month_cols rows]. f_equal. apply forallb_filter_id.
  now apply forallb_forall.
Qed.

Lemma actual_validated_all (df : frame num) :
  rows df <> [] ->
  (forall r, In r (rows df) -> is_code (code r) = true) ->
  Actual.validated df = inr (Frame (map strip (month_cols df)) (rows df)).
Proof.
  intros N A. destruct df as [cols rs]. cbn [rows month_cols] in *.
  destruct (exists_last N) as (l1 & r & ->).
  apply (actual_validated_upto cols l1 [] r).
  - apply A. apply in_or_app. right. now left.
  - intros r' [].
Qed.

(** X11.  The two transformations compared on one and the same frame
    (the scripts themselves read different column ranges of a workbook,
    A:N and A,B,D:O, so this relates the transformations, not two runs on
    one workbook).  On a frame that is not empty, all of whose rows match
    the pattern and all of whose month columns are labelled with canonical
    month names, every record of the table of the transformation of
    [Estimate_Revenue.py] is in the table of the transformation of
    [Actual_Revenue.py] whenever both produce one; when every canonical
    month labels a column, the two tables hold the same records. *)
Theorem X11_scripts_agree file_name (df : frame num) out_a out_e :
  rows df <> [] ->
  (forall r, In r (rows df) -> is_code (code r) = true) ->
  (forall label, In label (month_cols df) -> In (strip label) month_order) ->
  Actual.transform file_name df = inr out_a ->
  Estimate.transform file_name df = inr out_e ->
  (forall x, In x out_e -> In x out_a)
  /\ ((forall mo, In mo month_order ->
                  In mo (map strip (month_cols df))) ->
      forall x, In x out_a -> In x out_e).
Proof.
  intros N A L Ea Ee.
  pose proof (actual_validated_all df N A) as Hv.
  pose proof (estimate_validated_all df A) as He.
  set (v := Frame (map strip (month_cols df)) (rows df)) in *.
  destruct (actual_transform_inr _ _ _ Ea) as (v' & y & Hv' & Hy & _ & Eo).
  assert (v' = v) by congruence. subst v'.
  destruct (estimate_transform_inr _ _ _ Ee) as (y' & Hy' & ->).
  assert (y' = y) by congruence. subst y'. rewrite He.
  assert (Lv : forall m, In m (melt (clean v)) ->
                         In (m_month m) month_order).
  { intros m Hm. destruct (melt_clean_trimmed _ _ Hm) as (_ & _ & C).
    unfold v in C. cbn [month_cols] in C.
    apply in_map_iff in C as (l & <- & Hl). now apply L. }
  split.
  - intros x Hx. apply in_coerce_values in Hx as (x0 & Hx0 & ->).
    apply in_map_iff in Hx0 as (m & <- & Hm).
    exact (actual_record_present _ _ _ _ _ _ Ea Hv Hy Hm (Lv m Hm)).
  - intros Full x Hx. apply in_coerce_values.
    destruct (actual_record_origin _ _ _ _ _ _ Ea Hv Hy Hx)
      as (Yx & Hmo & [(m & Hm & C & W & S & V)|(Abs & _ & _)]).
    + exists (Estimate.final_row y m). split; [now apply in_map|].
      rewrite (month_word_canonical _ (Lv m Hm)) in W. injection W as W.
      destruct x as [xy xm xc xs xv].
      cbn [Year Month Revenue_Code Revenue_Source Value] in *.
      unfold coerce_record, Estimate.final_row.
      cbn [Year Month Revenue_Code Revenue_Source Value].
      now subst.
    + exfalso. rewrite Eo in Hx.
      apply in_coerce_values in Hx as (x0 & Hx0 & ->).
      apply in_map_iff in Hx0 as ([c mo] & <- & Hcm).
      unfold Actual.from_product in Hcm.
      apply in_flat_map in Hcm as (c' & Hc' & Hcm).
      apply in_map_iff in Hcm as (mo' & Ecm & Hmo').
      injection Ecm as -> ->.
      apply (proj1 (in_unique _ _)) in Hc'.
      apply in_map_iff in Hc' as (d & <- & Hd).
      apply in_map_iff in Hd as (m & <- & Hm).
      apply in_melt in Hm as (j & label & r & _ & Hr & ->).
      destruct (In_nth_error _ _ (Full mo Hmo')) as (j' & Hj').
      set (m' := Melted (code r) (source r) mo
                        (nth j' (values r) (@CNA num))).
      apply (Abs m').
      * apply in_melt. exists j', mo, r. rewrite month_cols_clean.
        unfold v at 1. cbn [month_cols]. now repeat split.
      * cbn [coerce_record Revenue_Code Month Actual.add_date
               Actual.d_code m_code m_month].
        destruct (reindex_row_key y
                    (map (Actual.add_date y) (melt (clean v)))
                    (code r, mo)) as (-> & -> & _).
        cbn [fst snd m' m_code m_month]. split; [reflexivity|].
        now apply month_word_canonical.
Qed.

End Agreement.

(** X9, on the two-row sample: a table, hence distinct labels. *)
Lemma X9_actual_table_iff_labels_distinct_witness :
  NoDup (map Shapes.long_label (melt (clean Samples.report))).
Proof.
  apply (proj1 (X9_actual_table_iff_labels_distinct Samples.file_name
                  Samples.report Samples.report 2021%Z
                  ltac:(vm_compute; reflexivity) eq_refl)).
  eexists. vm_compute. reflexivity.
Defined.

(** X10, on the two-row sample. *)
Lemma X10_actual_distinct_codes_suffice_witness :
  exists out, Actual.transform Samples.file_name Samples.report = inr out.
Proof.
  refine (X10_actual_distinct_codes_suffice Samples.file_name Samples.report
            Samples.report 2021%Z _ eq_refl _ _).
  - vm_compute. reflexivity.
  - vm_compute. repeat constructor; cbn [In]; intuition discriminate.
  - vm_compute. repeat constructor; cbn [In]; intuition discriminate.
Defined.

(** X11, on the last record of the two-row sample frame. *)
Lemma X11_scripts_agree_witness :
  let x := Long 2021%Z "December" (CStr "2000.05.10") (CStr "2000.05.10")
                (CNum 1200%Z) in
  In x (Props.table_of
          (Actual.transform Samples.file_name Samples.report))
  /\ In x (Props.table_of
             (Estimate.transform Samples.file_name Samples.report)).
Proof.
  assert (I : In (Long 2021%Z "December" (CStr "2000.05.10")
                      (CStr "2000.05.10") (CNum 1200%Z))
                 (Props.table_of
                    (Actual.transform Samples.file_name Samples.report)))
    by (vm_compute; do 23 right; left; reflexivity).
  split; [exact I|].
  refine (proj2 (X11_scripts_agree Samples.file_name Samples.report
                   _ _ _ _ _ _ _) _ _ I).
  - discriminate.
  - intros r [<-|[<-|[]]]; reflexivity.
  - intros label Hl. cbn in Hl.
    repeat (destruct Hl as [<-|Hl]; [vm_compute; tauto|]). contradiction.
  - vm_compute. reflexivity.
  - vm_compute. reflexivity.
  - intros mo Hmo. exact Hmo.
Defined.

(** ** Cleaning twice *)

Section CleaningTwice.
Context {num : Type} `{Numeric num}.
Import PyStr Regex Props Shapes PyStrFacts RegexFacts.

Lemma clean_row_not_padded (r : row num) :
  existsb padded_dash (row_cells (clean_row r)) = false.
Proof.
  unfold row_cells, clean_row. cbn [code source values existsb].
  rewrite clean_cell_not_padded. cbn [orb].
  assert (S : padded_dash (if isna (clean_cell (source r))
                           then clean_cell (code r)
                           else clean_cell (source r)) = false)
    by (destruct (isna _); apply clean_cell_not_padded).
  rewrite S. cbn [orb].
  destruct (existsb padded_dash (map clean_cell (values r))) eqn:E;
    [|reflexivity].
  apply existsb_exists in E as (c & Hc & P).
  apply in_map_iff in Hc as (c0 & <- & _).
  now rewrite clean_cell_not_padded in P.
Qed.

(** X12.  Cleaning settles after two passes on every frame: a third pass
    changes nothing, and the cells of a cleaned frame are trimmed. *)
Theorem X12_clean_settles (df : frame num) :
  clean (clean (clean df)) = clean (clean df)
  /\ forallb trimmed (frame_cells (clean df)) = true.
Proof.
  split.
  - rewrite !clean_unfold. cbn [rows month_cols]. f_equal.
    rewrite !map_map. apply map_ext. intros r.
    apply clean_row_idem, clean_row_not_padded.
  - apply forallb_forall. intros c Hc. unfold frame_cells in Hc.
    apply in_flat_map in Hc as (r & Hr & Hc).
    rewrite rows_clean in Hr. apply in_map_iff in Hr as (r0 & <- & _).
    destruct (clean_row_trimmed r0) as [A B].
    destruct Hc as [<-|[<-|Hc]]; [exact A|exact B|].
    unfold clean_row in Hc. cbn [values] in Hc.
    apply in_map_iff in Hc as (c0 & <- & _). apply clean_cell_trimmed.
Qed.

End CleaningTwice.

(** ** The files of the folder *)

Module FolderFacts.
Import PyStr.

Lemma length_append s t :
  String.length (s ++ t)%string = String.length s + String.length t.
Proof. induction s as [|c s IH]; simpl; congruence. Qed.

Lemma substring_whole s : substring 0 (String.length s) s = s.
Proof. induction s as [|c s IH]; simpl; congruence. Qed.

Lemma substring_suffix pre suf :
  substring (String.length pre) (String.length suf) (pre ++ suf)%string
  = suf.
Proof.
  induction pre as [|c pre IH]; [apply substring_whole|exact IH].
Qed.

Lemma substring_split i s :
  i <= String.length s ->
  s = (substring 0 i s ++ substring i (String.length s - i) s)%string.
Proof.
  revert s. induction i as [|i IH]; intros s L.
  - rewrite Nat.sub_0_r, substring_whole. now destruct s.
  - destruct s as [|c s]; [simpl in L; lia|].
    simpl in L. simpl. f_equal. apply IH. lia.
Qed.

Lemma endswith_iff s suffix :
  endswith s suffix = true <-> exists stem, s = (stem ++ suffix)%string.
Proof.
  unfold endswith. rewrite andb_true_iff, Nat.leb_le, String.eqb_eq. split.
  - intros [L E].
    exists (substring 0 (String.length s - String.length suffix) s).
    pose proof (substring_split
                  (String.length s - String.length suffix) s
                  ltac:(lia)) as S.
    replace (String.length s - (String.length s - String.length suffix))
      with (String.length suffix) in S by lia.
    rewrite E in S. exact S.
  - intros (stem & ->). rewrite length_append. split; [lia|].
    replace (String.length stem + String.length suffix
             - String.length suffix) with (String.length stem) by lia.
    apply substring_suffix.
Qed.

Section Folder.
Context {num : Type} `{Numeric num}.
Variable read_excel : string -> result (frame num).
Variable to_sql : list (LongRecord num) -> option exn.

(** X13.  The loop runs over the names of the folder that end in ".xlsx"
    once put in lower case, and the script raises its ValueError for an
    empty folder exactly when no name does. *)
Theorem X13_excel_files_by_extension listing (w : Estimate.world) :
  (forall f,
      In f (Estimate.excel_files listing)
      <-> In f listing
          /\ exists stem, lower f = (stem ++ ".xlsx")%string)
  /\ (Estimate.main read_excel to_sql listing w
      = raise ValueError msg_no_files
      <-> forall f, In f listing ->
                    ~ exists stem, lower f = (stem ++ ".xlsx")%string).
Proof.
  assert (A : forall f,
             In f (Estimate.excel_files listing)
             <-> In f listing
                 /\ exists stem, lower f = (stem ++ ".xlsx")%string).
  { intros f. unfold Estimate.excel_files.
    now rewrite filter_In, endswith_iff. }
  split; [exact A|]. unfold Estimate.main.
  destruct (Estimate.excel_files listing) as [|f fs] eqn:E.
  - split; [|reflexivity]. intros _ f Hf X.
    now apply (proj2 (A f) (conj Hf X)).
  - split; [discriminate|]. intros N. exfalso.
    destruct (proj1 (A f) (or_introl eq_refl)) as [Hf X].
    exact (N f Hf X).
Qed.

End Folder.
End FolderFacts.

(** ** The connection string *)

Module ConnectionFacts.
Import Connection.

Lemma chars_append s t :
  list_ascii_of_string (s ++ t)%string
  = list_ascii_of_string s ++ list_ascii_of_string t.
Proof. induction s as [|c s IH]; simpl; congruence. Qed.

Lemma quote_char_chars c :
  forallb url_char (list_ascii_of_string (quote_char c)) = true.
Proof. destruct c as [[] [] [] [] [] [] [] []]; reflexivity. Qed.

Lemma quote_plus_chars s :
  forallb url_char (list_ascii_of_string (quote_plus s)) = true.
Proof.
  induction s as [|c s IH]; [reflexivity|]. cbn [quote_plus].
  now rewrite chars_append, forallb_app, quote_char_chars, IH.
Qed.

Lemma truthy_false v : truthy v = false <-> v = None \/ v = Some EmptyString.
Proof.
  destruct v as [[|c s]|]; cbn [truthy].
  - split; [intros _; now right|reflexivity].
  - split; [discriminate|intros [E|E]; discriminate].
  - split; [intros _; now left|reflexivity].
Qed.

(** X14.  Both scripts refuse to start, with a ValueError, exactly when
    one of the four database variables is not set or is empty.
    Otherwise the URL of the engine is the fixed prefix followed by the
    escaped connection string, which consists of letters, digits and the
    characters [_.-~%+] only: nothing in the credentials can add a
    second parameter to the URL. *)
Theorem X14_engine_url_cases (server database username password
                              : option string) :
  (engine_url server database username password
   = raise ValueError msg_env
   /\ exists v, In v [server; database; username; password]
                /\ (v = None \/ v = Some EmptyString))
  \/ (forallb truthy [server; database; username; password] = true
      /\ exists params,
          engine_url server database username password
          = ret (url_prefix ++ params)%string
          /\ params
             = quote_plus (odbc_string server database username password)
          /\ forallb url_char (list_ascii_of_string params) = true
          /\ forall c, In c ["&"; "="; ";"; "#"; " "; "?"; "/"; "{"; "}"]%char
                       -> ~ In c (list_ascii_of_string params)).
Proof.
  unfold engine_url.
  destruct (forallb truthy [server; database; username; password]) eqn:E.
  - right. split; [reflexivity|]. eexists. split; [reflexivity|].
    split; [reflexivity|]. split; [apply quote_plus_chars|].
    intros c Hc I.
    pose proof (proj1 (forallb_forall _ _) (quote_plus_chars _) c I) as U.
    cbn [In] in Hc.
    repeat (destruct Hc as [<-|Hc]; [discriminate|]). contradiction.
  - left. split; [reflexivity|].
    cbn [forallb] in E. rewrite andb_true_r in E.
    repeat (apply andb_false_iff in E as [E|E]);
      apply truthy_false in E; eexists; (split; [|exact E]); cbn [In];
      tauto.
Qed.

End ConnectionFacts.
